(** * task3_functions.py: training driver, visualizer and error explorer

    A shallow embedding of [src/task3_functions.py].  The deep-learning
    framework (model, optimizer, scheduler, loss, random generator) is an
    interface, [Framework]; the Python functions are written in a small
    monad that threads the mutable objects (the model and the optimizer),
    records every external call and print in a trace, and propagates
    Python exceptions. *)

From Stdlib Require Import List ZArith QArith Qminmax Bool String Lia Arith.
From Stdlib Require Import DecimalString.
Import ListNotations.

Set Implicit Arguments.

(** ** Exceptions, results and the monad *)

(** The exceptions the embedded code can raise. *)
Inductive exn : Type :=
| AttributeError      (* [.double()] on the Python int [0] *)
| ZeroDivisionError   (* Python float divided by the int [0] *)
| ValueError          (* numpy [Generator.choice], matplotlib [subplot] *)
| IndexError.         (* list or tensor index out of range *)

Inductive result (A : Type) : Type :=
| Ok (a : A)
| Raise (e : exn).

Arguments Ok {A} a.
Arguments Raise {A} e.

Definition is_ok {A} (r : result A) : bool :=
  match r with Ok _ => true | Raise _ => false end.

Module PyM.

(** A computation over a store [W] that emits events of type [E]:
    it returns its result, the store it leaves (mutations made before
    an exception persist, as in Python) and the events it emitted. *)
Definition M (W E A : Type) : Type := W -> result A * W * list E.

Definition ret {W E A} (a : A) : M W E A := fun w => (Ok a, w, []).

Definition bind {W E A B} (m : M W E A) (f : A -> M W E B) : M W E B :=
  fun w =>
    match m w with
    | (Ok a, w1, t1) =>
        match f a w1 with
        | (r, w2, t2) => (r, w2, t1 ++ t2)
        end
    | (Raise e, w1, t1) => (Raise e, w1, t1)
    end.

Definition raise {W E A} (e : exn) : M W E A := fun w => (Raise e, w, []).
Definition get {W E} : M W E W := fun w => (Ok w, w, []).
Definition modify {W E} (f : W -> W) : M W E unit := fun w => (Ok tt, f w, []).
Definition emit {W E} (e : E) : M W E unit := fun w => (Ok tt, w, [e]).

(** [for b in l: a = f b a] *)
Fixpoint foldM {W E A B} (f : B -> A -> M W E A) (l : list B) (a : A)
  : M W E A :=
  match l with
  | [] => ret a
  | b :: l' => bind (f b a) (foldM f l')
  end.

Definition outcome {A W E} (x : result A * W * list E) : result A := fst (fst x).
Definition store {A W E} (x : result A * W * list E) : W := snd (fst x).
Definition events {A W E} (x : result A * W * list E) : list E := snd x.

(** The run [x] with the event [e] emitted before it. *)
Definition prepend {A W E} (e : E) (x : result A * W * list E)
  : result A * W * list E :=
  (outcome x, store x, e :: events x).

(** Every event a computation emits satisfies [P]. *)
Definition emits {W E A} (P : E -> Prop) (m : M W E A) : Prop :=
  forall w, Forall P (events (m w)).

(** Every step of a computation keeps [I] true of the store. *)
Definition preserves {W E A} (I : W -> Prop) (m : M W E A) : Prop :=
  forall w, I w -> I (store (m w)).

(** Every value a computation returns satisfies [R]. *)
Definition returns_only {W E A} (R : A -> Prop) (m : M W E A) : Prop :=
  forall w a, outcome (m w) = Ok a -> R a.

End PyM.
Import PyM.

Declare Scope py_scope.
Delimit Scope py_scope with py.
Notation "x <- c1 ;; c2" := (bind c1 (fun x => c2))
  (at level 100, c1 at next level, right associativity) : py_scope.
Notation "c1 ;; c2" := (bind c1 (fun _ => c2))
  (at level 100, right associativity) : py_scope.
Local Open Scope py_scope.

(** ** The framework interface *)

Inductive phase : Type := Train | Val.

Definition phase_eqb (a b : phase) : bool :=
  match a, b with
  | Train, Train | Val, Val => true
  | _, _ => false
  end.

(** What the code uses of torch, numpy and matplotlib.  A Python float
    ([loss.item()], the epoch accuracy) is a rational here: the code only
    adds, multiplies, divides and compares these numbers, and rounding is
    not modelled. *)
Class Framework : Type := {
  Tensor : Type;     (* one example of an input batch, channel first *)
  Params : Type;     (* the value of [model.state_dict()] *)
  Logits : Type;     (* the output of [model(inputs)], with its graph *)
  OptState : Type;   (* optimizer, scheduler and gradient buffers *)
  Picture : Type;    (* a channel-last array handed to [imshow] *)
  RngState : Type;   (* the state of a numpy bit generator *)
  (* [model(inputs)] in training ([true]) or evaluation mode; the forward
     pass may update buffers held in the state dict *)
  forward : bool -> Params -> list Tensor -> Params * Logits;
  (* the indices returned by [torch.max(outputs, 1)] / [.argmax(1)] *)
  argmax1 : Logits -> list Z;
  (* [criterion(outputs, labels).item()] *)
  criterion : Logits -> list Z -> Q;
  zero_grad : OptState -> OptState;
  backward : Logits -> list Z -> OptState -> OptState;
  optimizer_step : Params -> OptState -> Params * OptState;
  scheduler_step : OptState -> OptState;
  (* transpose to channel last, [std * inp + mean], clip to [0, 1] *)
  to_display : Tensor -> Picture;
  (* [default_rng(seed)] for an integer seed *)
  seed_rng : Z -> RngState;
  (* the values [Generator.choice(range(n), k, replace)] draws when it
     accepts its arguments *)
  draw : RngState -> nat -> nat -> bool -> list nat
}.

(** ** The arithmetic of the display helpers, on one value

    The constants of lines 15, 21, 30-31 and 168-169. *)
Definition channel_mean : list Q := [0.485; 0.456; 0.406]%Q.
Definition channel_std : list Q := [0.229; 0.224; 0.225]%Q.

(** [np.clip(x, lo, hi)] *)
Definition clip (x lo hi : Q) : Q := Qmin (Qmax x lo) hi.

(** [std * inp + mean] and [np.clip(inp, 0, 1)] on the value [v] of
    channel [c] (lines 32-33 and 170-171), read in exact rationals.  The
    embedded [view_grid] and [render_cell] do not go through this
    arithmetic: they hand the tensor to [to_display]. *)
Definition denormalize (c : nat) (v : Q) : Q :=
  clip (nth c channel_std 0 * v + nth c channel_mean 0) 0 1.

(** What [transforms.Normalize(mean, std)] of [data_transforms] does to
    the value [x] of channel [c], as torchvision defines it. *)
Definition normalize (c : nat) (x : Q) : Q :=
  (x - nth c channel_mean 0) / nth c channel_std 0.

Section Embedding.

Context {F : Framework}.

(** ** Data model *)

(** The model object: its parameter state and its mode flag
    ([model.training]). *)
Record Model : Type := mkModel {
  state_dict : Params;
  training : bool
}.

(** [(inputs, labels)] as a data loader yields it; one label per example. *)
Record Batch : Type := mkBatch {
  inputs : list Tensor;
  labels : list Z
}.

(** The mutable objects a call works on, and the entropy the operating
    system would hand to [default_rng(None)]. *)
Record world : Type := mkWorld {
  model : Model;
  optim : OptState;
  os_entropy : Z
}.

(** External calls and prints, in program order. *)
Inductive event : Type :=
| EvPrintEpoch (epoch : nat) (last : Z)    (* 'Epoch {epoch}/{num_epochs - 1}' *)
| EvModelTrain (mode : bool)               (* model.train(mode); model.eval() is mode False *)
| EvZeroGrad                               (* optimizer.zero_grad() *)
| EvForward (x : list Tensor)              (* model(inputs) *)
| EvBackward                               (* loss.backward() *)
| EvOptimizerStep                          (* optimizer.step() *)
| EvSchedulerStep                          (* scheduler.step() *)
| EvPrintStats (ph : phase) (loss acc : Q) (* '{phase} Loss: ... Acc: ...' *)
| EvPrintBest (best_acc : Q)               (* 'Best val Acc: ...' *)
| EvLoadStateDict                          (* model.load_state_dict(best_model_wts) *)
| EvFigure                                 (* plt.figure() *)
| EvSubplot (nrows ncols index : Z)        (* plt.subplot(nrows, ncols, index) *)
| EvAxisOff                                (* ax.axis('off') *)
| EvSetTitle (title : string)              (* ax.set_title(title) / plt.title(title) *)
| EvImshow (pic : Picture)                 (* plt.imshow(inp) / ax.imshow(im) *)
| EvSubplots (nrows ncols : nat).          (* plt.subplots(nrows=5, ncols=5, ...) *)

Definition Py (A : Type) : Type := M world event A.

(** ** Operations on the model and the optimizer *)

Definition set_model (m : Model) (w : world) : world :=
  mkWorld m (optim w) (os_entropy w).

Definition set_optim (o : OptState) (w : world) : world :=
  mkWorld (model w) o (os_entropy w).

(** [model.train(mode)]; [model.eval()] is [model.train(False)]. *)
Definition model_train (mode : bool) : Py unit :=
  modify (fun w => set_model (mkModel (state_dict (model w)) mode) w) ;;
  emit (EvModelTrain mode).

Definition model_eval : Py unit := model_train false.

(** [model(inputs)] *)
Definition call_model (x : list Tensor) : Py Logits :=
  w <- get ;;
  let (p, out) := forward (training (model w)) (state_dict (model w)) x in
  modify (set_model (mkModel p (training (model w)))) ;;
  emit (EvForward x) ;;
  ret out.

(** [copy.deepcopy(model.state_dict())]: a value of [Params] is immutable,
    so reading it is the independent copy. *)
Definition deepcopy_state_dict : Py Params :=
  w <- get ;; ret (state_dict (model w)).

(** [model.load_state_dict(wts)] *)
Definition load_state_dict (wts : Params) : Py unit :=
  modify (fun w => set_model (mkModel wts (training (model w))) w) ;;
  emit EvLoadStateDict.

Definition optimizer_zero_grad : Py unit :=
  modify (fun w => set_optim (zero_grad (optim w)) w) ;; emit EvZeroGrad.

Definition loss_backward (out : Logits) (y : list Z) : Py unit :=
  modify (fun w => set_optim (backward out y (optim w)) w) ;; emit EvBackward.

Definition do_optimizer_step : Py unit :=
  modify (fun w =>
            let (p, o) := optimizer_step (state_dict (model w)) (optim w) in
            mkWorld (mkModel p (training (model w))) o (os_entropy w)) ;;
  emit EvOptimizerStep.

Definition do_scheduler_step : Py unit :=
  modify (fun w => set_optim (scheduler_step (optim w)) w) ;; emit EvSchedulerStep.

(** ** train_model *)

(** [torch.sum(preds == labels.data)] for predictions and labels of one
    length: the number of positions where the prediction is the label.
    (For tensors of different lengths torch broadcasts or raises; the
    statements that depend on the count assume one label and one
    prediction per example.) *)
Definition count_correct (preds y : list Z) : Z :=
  Z.of_nat (List.length (filter (fun py => Z.eqb (fst py) (snd py)) (combine preds y))).

(** [running_corrects] starts as the Python int [0] and becomes a tensor
    at the first [+=]: [None] is the int, [Some c] a tensor holding [c]. *)
Definition add_corrects (running : option Z) (c : Z) : option Z :=
  match running with
  | None => Some c
  | Some r => Some (r + c)%Z
  end.

(** [x > y] on two accuracies. *)
Definition acc_gtb (x y : Q) : bool :=
  match Qcompare x y with Gt => true | _ => false end.

(** The arguments [dataloaders] and [dataset_sizes]: [batches ph e] is
    what iterating [dataloaders[ph]] yields in epoch [e]. *)
Record Data : Type := mkData {
  batches : phase -> nat -> list Batch;
  dataset_sizes : phase -> Z
}.

(** The body of [for inputs, labels in dataloaders[phase]] (lines 60-81). *)
Definition batch_body (ph : phase) (b : Batch) (running : Q * option Z)
  : Py (Q * option Z) :=
  let (running_loss, running_corrects) := running in
  optimizer_zero_grad ;;
  outputs <- call_model (inputs b) ;;
  let preds := argmax1 outputs in
  let loss := criterion outputs (labels b) in
  (if phase_eqb ph Train
   then (loss_backward outputs (labels b) ;; do_optimizer_step)
   else ret tt) ;;
  ret ((running_loss + loss * inject_Z (Z.of_nat (List.length (inputs b))))%Q,
       add_corrects running_corrects (count_correct preds (labels b))).

(** The body of [for phase in ['train', 'val']] (lines 51-93), with
    [(best_acc, best_model_wts)] threaded through.  The divisions of
    lines 85-86 are exact, for a size that fits a signed 64-bit integer
    ([int64]); beyond it [tensor / size] raises [OverflowError], a case
    the statement of the exact return condition excludes by hypothesis. *)
Definition phase_body (d : Data) (epoch : nat) (ph : phase) (best : Q * Params)
  : Py (Q * Params) :=
  let (best_acc, best_model_wts) := best in
  (if phase_eqb ph Train then model_train true else model_eval) ;;
  running <- foldM (batch_body ph) (batches d ph epoch) (0%Q, None) ;;
  let (running_loss, running_corrects) := running in
  (if phase_eqb ph Train then do_scheduler_step else ret tt) ;;
  epoch_loss <- (if Z.eqb (dataset_sizes d ph) 0
                 then raise ZeroDivisionError
                 else ret (running_loss / inject_Z (dataset_sizes d ph))%Q) ;;
  epoch_acc <- (match running_corrects with
                | None => raise AttributeError
                | Some c => ret (inject_Z c / inject_Z (dataset_sizes d ph))%Q
                end) ;;
  emit (EvPrintStats ph epoch_loss epoch_acc) ;;
  if phase_eqb ph Val && acc_gtb epoch_acc best_acc
  then (wts <- deepcopy_state_dict ;; ret (epoch_acc, wts))
  else ret (best_acc, best_model_wts).

(** The body of [for epoch in range(num_epochs)] (lines 46-95). *)
Definition epoch_body (d : Data) (num_epochs : Z) (epoch : nat) (best : Q * Params)
  : Py (Q * Params) :=
  emit (EvPrintEpoch epoch (num_epochs - 1)) ;;
  foldM (phase_body d epoch) [Train; Val] best.

(** The epoch loop run for [k] epochs, from the initial best pair. *)
Definition epochs_loop (d : Data) (num_epochs : Z) (k : nat) : Py (Q * Params) :=
  wts0 <- deepcopy_state_dict ;;
  foldM (epoch_body d num_epochs) (seq 0 k) (0%Q, wts0).

(** [train_model(device, dataloaders, dataset_sizes, model, criterion,
    optimizer, scheduler, num_epochs)]; the model, the optimizer and the
    scheduler are in the store, the criterion in the framework.  The
    device and the wall-clock report are not modelled. *)
Definition train_model (d : Data) (num_epochs : Z) : Py Model :=
  best <- epochs_loop d num_epochs (Z.to_nat num_epochs) ;;
  emit (EvPrintBest (fst best)) ;;
  load_state_dict (snd best) ;;
  w <- get ;; ret (model w).

(** ** view_grid and visualize_model *)

(** Python list indexing [l[i]]: a negative index counts from the end. *)
Definition py_index {A} (l : list A) (i : Z) : Py A :=
  let n := Z.of_nat (List.length l) in
  let j := if (i <? 0)%Z then (n + i)%Z else i in
  if (j <? 0)%Z then raise IndexError
  else match nth_error l (Z.to_nat j) with
       | Some a => ret a
       | None => raise IndexError
       end.

(** Indexing a tensor along its first dimension by a loop index. *)
Definition tensor_index {A} (l : list A) (i : nat) : Py A :=
  match nth_error l i with
  | Some a => ret a
  | None => raise IndexError
  end.

(** [view_grid(inp, title=None)] (lines 27-36): the array arithmetic is
    [to_display]. *)
Definition view_grid (inp : Tensor) (title : option string) : Py unit :=
  emit (EvImshow (to_display inp)) ;;
  match title with
  | Some t => emit (EvSetTitle t)
  | None => ret tt
  end.

(** [plt.subplot(nrows, ncols, index)]: matplotlib raises [ValueError]
    unless the grid has a positive number of rows and columns and
    [1 <= index <= nrows * ncols]. *)
Definition plt_subplot (nrows ncols index : Z) : Py unit :=
  if (nrows <=? 0)%Z || (ncols <=? 0)%Z then raise ValueError
  else if (index <? 1)%Z || (nrows * ncols <? index)%Z then raise ValueError
  else emit (EvSubplot nrows ncols index).

(** A [for] loop whose body may execute [return]: the body yields the
    new loop state and whether the function has returned. *)
Fixpoint for_until {A B} (f : B -> A -> Py (A * bool)) (l : list B) (a : A)
  : Py (A * bool) :=
  match l with
  | [] => ret (a, false)
  | b :: l' =>
      r <- f b a ;;
      if snd r then ret r else for_until f l' (fst r)
  end.

(** The body of [for j in range(inputs.size()[0])] (lines 121-129). *)
Definition show_example (class_names : list string) (num_images : Z)
  (was_training : bool) (x : list Tensor) (preds : list Z) (j : nat)
  (images_so_far : Z) : Py (Z * bool) :=
  let images_so_far := (images_so_far + 1)%Z in
  plt_subplot (num_images / 2)%Z 2%Z images_so_far ;;
  emit EvAxisOff ;;
  p <- tensor_index preds j ;;
  name <- py_index class_names p ;;
  emit (EvSetTitle ("predicted: " ++ name)) ;;
  xj <- tensor_index x j ;;
  view_grid xj None ;;
  if (images_so_far =? num_images)%Z
  then (model_train was_training ;; ret (images_so_far, true))
  else ret (images_so_far, false).

(** The body of [for i, (inputs, labels) in enumerate(dataloaders['val'])]
    (lines 114-129). *)
Definition visualize_batch (class_names : list string) (num_images : Z)
  (was_training : bool) (b : Batch) (images_so_far : Z) : Py (Z * bool) :=
  outputs <- call_model (inputs b) ;;
  let preds := argmax1 outputs in
  for_until (show_example class_names num_images was_training (inputs b) preds)
            (seq 0 (List.length (inputs b))) images_so_far.

(** [visualize_model(device, dataloaders, class_names, model, num_images)];
    [val_batches] is what iterating [dataloaders['val']] yields. *)
Definition visualize_model (val_batches : list Batch) (class_names : list string)
  (num_images : Z) : Py unit :=
  w <- get ;;
  let was_training := training (model w) in
  model_eval ;;
  emit EvFigure ;;
  r <- for_until (visualize_batch class_names num_images was_training)
                 val_batches 0%Z ;;
  if snd r then ret tt else model_train was_training.

(** ** explore_wrong_5x5_rgb *)

(** The three parallel collections [all_wrong], [preds] and [gtruths]. *)
Record Wrong : Type := mkWrong {
  all_wrong : list Tensor;
  wrong_preds : list Z;
  gtruths : list Z
}.

(** [torch.argwhere(pred != y).flatten()], for [pred] and [y] of one
    length. *)
Definition wrong_ixs (pred y : list Z) : list nat :=
  map fst
      (filter (fun t => negb (Z.eqb (fst (snd t)) (snd (snd t))))
              (combine (seq 0 (List.length y)) (combine pred y))).

(** The body of [for ix in wrong_ixs] (lines 146-148). *)
Definition append_wrong (x : list Tensor) (pred y : list Z) (ix : nat) (c : Wrong)
  : Py Wrong :=
  xi <- tensor_index x ix ;;
  pi <- tensor_index pred ix ;;
  yi <- tensor_index y ix ;;
  ret (mkWrong (all_wrong c ++ [xi]) (wrong_preds c ++ [pi]) (gtruths c ++ [yi])).

(** The body of [for X, y in dataloader] (lines 141-148). *)
Definition scan_batch (b : Batch) (c : Wrong) : Py Wrong :=
  out <- call_model (inputs b) ;;
  let pred := argmax1 out in
  foldM (append_wrong (inputs b) pred (labels b)) (wrong_ixs pred (labels b)) c.

(** The scan of the whole data set (lines 137-148). *)
Definition collect_wrong (dataloader : list Batch) : Py Wrong :=
  foldM scan_batch dataloader (mkWrong [] [] []).

(** [default_rng(seed)]: without a seed numpy takes fresh entropy from
    the operating system; a negative integer seed is refused with
    [ValueError]. *)
Definition default_rng (seed : option Z) : Py RngState :=
  match seed with
  | Some s => if (s <? 0)%Z then raise ValueError else ret (seed_rng s)
  | None => w <- get ;; ret (seed_rng (os_entropy w))
  end.

(** [rng.choice(range(n), k, replace=replace)]: numpy raises [ValueError]
    for an empty population with a non-empty sample, and for a sample
    without replacement larger than the population. *)
Definition rng_choice (rng : RngState) (n k : nat) (replace : bool)
  : Py (list nat) :=
  if (n =? 0)%nat && negb (k =? 0)%nat then raise ValueError
  else if negb replace && (n <? k)%nat then raise ValueError
  else ret (draw rng n k replace).

(** Lines 135-150: evaluation mode, the generator, the scan and the draw
    of the 25 example indices. *)
Definition sample_wrong (dataloader : list Batch) (seed : option Z)
  (replace : bool) : Py (Wrong * list nat) :=
  model_eval ;;
  rng <- default_rng seed ;;
  c <- collect_wrong dataloader ;;
  example_ixs <- rng_choice rng (List.length (gtruths c)) 25 replace ;;
  ret (c, example_ixs).

(** [str(int(y))] *)
Definition str_int (y : Z) : string := NilZero.string_of_int (Z.to_int y).

(** The truth value Python gives to [class_labels]: [None] and the empty
    list are false. *)
Definition truthy (class_labels : option (list string)) : bool :=
  match class_labels with
  | Some (_ :: _) => true
  | _ => false
  end.

Definition cell_title (true_name guess : string) : string :=
  "True:" ++ true_name ++ ", Guess:" ++ guess.

(** The body of [for i, ix in enumerate(example_ixs)] (lines 155-172);
    [axes.flatten()] has 25 cells. *)
Definition render_cell (class_labels : option (list string)) (c : Wrong)
  (i_ix : nat * nat) (_ : unit) : Py unit :=
  let (i, ix) := i_ix in
  X <- tensor_index (all_wrong c) ix ;;
  y <- tensor_index (gtruths c) ix ;;
  y_guess <- tensor_index (wrong_preds c) ix ;;
  names <- (if truthy class_labels
            then (let cl := match class_labels with Some l => l | None => [] end in
                  t <- py_index cl y ;;
                  g <- py_index cl y_guess ;;
                  ret (t, g))
            else ret (str_int y, str_int y_guess)) ;;
  (if (i <? 25)%nat then ret tt else raise IndexError) ;;
  emit (EvSetTitle (cell_title (fst names) (snd names))) ;;
  emit (EvImshow (to_display X)).

(** [enumerate(l)] *)
Definition enumerate {A} (l : list A) : list (nat * A) :=
  combine (seq 0 (List.length l)) l.

(** [explore_wrong_5x5_rgb(dataloader, model, device, class_labels, seed,
    replace)] *)
Definition explore_wrong_5x5_rgb (dataloader : list Batch)
  (class_labels : option (list string)) (seed : option Z) (replace : bool)
  : Py unit :=
  s <- sample_wrong dataloader seed replace ;;
  let (c, example_ixs) := s in
  emit (EvSubplots 5 5) ;;
  foldM (render_cell class_labels c) (enumerate example_ixs) tt ;;
  model_train true.

(** ** Vocabulary of the statements about train_model *)

(** The validation accuracies a trace records, in epoch order. *)
Definition val_accs (t : list event) : list Q :=
  flat_map (fun ev => match ev with
                      | EvPrintStats Val _ a => [a]
                      | _ => []
                      end) t.

(** The parameters of the model when epoch [e] is over, that is at the
    end of its validation phase: the state the epoch loop leaves after
    [e + 1] epochs. *)
Definition snapshot_at (d : Data) (num_epochs : Z) (e : nat) (w : world) : Params :=
  state_dict (model (store (epochs_loop d num_epochs (S e) w))).

Definition is_scheduler_step (ev : event) : bool :=
  match ev with EvSchedulerStep => true | _ => false end.

Definition is_epoch_header (ev : event) : bool :=
  match ev with EvPrintEpoch _ _ => true | _ => false end.

(** The events of one pass of the batch loop body. *)
Definition batch_events (ph : phase) (b : Batch) : list event :=
  EvZeroGrad :: EvForward (inputs b)
    :: (if phase_eqb ph Train then [EvBackward; EvOptimizerStep] else []).

(** The events that make the course of the epoch loop: the epoch
    headers and every call on the model, the optimizer and the
    scheduler; the statistics lines are left out. *)
Definition is_call (ev : event) : bool :=
  match ev with
  | EvPrintEpoch _ _ | EvModelTrain _ | EvZeroGrad | EvForward _ | EvBackward
  | EvOptimizerStep | EvSchedulerStep => true
  | _ => false
  end.

Definition calls (t : list event) : list event := filter is_call t.

(** The calls of the training phase of epoch [e]: the header, training
    mode, then for each training batch in turn zero_grad, the forward
    pass, the backward pass and the optimizer step, and after the last
    batch the scheduler step. *)
Definition train_calls (d : Data) (num_epochs : Z) (e : nat) : list event :=
  [EvPrintEpoch e (num_epochs - 1); EvModelTrain true]
    ++ flat_map (batch_events Train) (batches d Train e) ++ [EvSchedulerStep].

(** The calls of the validation phase of epoch [e]: evaluation mode,
    then zero_grad and the forward pass of each validation batch. *)
Definition val_calls (d : Data) (e : nat) : list event :=
  EvModelTrain false :: flat_map (batch_events Val) (batches d Val e).

Definition epoch_calls (d : Data) (num_epochs : Z) (e : nat) : list event :=
  train_calls d num_epochs e ++ val_calls d e.

(** ** Vocabulary of the statements about the events and the store *)

(** The events of a phase up to its statistics line. *)
Definition phase_pre (d : Data) (e : nat) (ph : phase) : list event :=
  EvModelTrain (phase_eqb ph Train)
    :: flat_map (batch_events ph) (batches d ph e)
    ++ (if phase_eqb ph Train then [EvSchedulerStep] else []).

(** The best pair after a phase that measured accuracy [a]. *)
Definition update_best (ph : phase) (a : Q) (best : Q * Params) (now : Params)
  : Q * Params :=
  if phase_eqb ph Val && acc_gtb a (fst best) then (a, now) else best.

(** Every phase of epoch [e] can finish: its size is not zero and its
    loader yields a batch. *)
Definition good_epoch (d : Data) (e : nat) : Prop :=
  forall ph, dataset_sizes d ph <> 0%Z /\ batches d ph e <> [].

(** The events of an epoch whose two phases finish. *)
Definition epoch_events (d : Data) (num_epochs : Z) (e : nat)
  (l1 a1 l a : Q) : list event :=
  EvPrintEpoch e (num_epochs - 1)
    :: (phase_pre d e Train ++ [EvPrintStats Train l1 a1])
    ++ (phase_pre d e Val ++ [EvPrintStats Val l a]).

(** What the pair [(best_acc, best_model_wts)] is after the epochs whose
    validation accuracies are [accs]: the initial pair while no accuracy
    exceeded 0, else the accuracy and the snapshot of the first epoch
    that reached the highest accuracy. *)
Definition best_of (accs : list Q) (snap : nat -> Params) (p0 : Params)
  (best : Q * Params) : Prop :=
  (best = (0%Q, p0) /\ forall a, In a accs -> (a <= 0)%Q)
  \/ exists i,
      nth_error accs i = Some (fst best)
      /\ (0 < fst best)%Q
      /\ snd best = snap i
      /\ (forall j c, nth_error accs j = Some c -> (c <= fst best)%Q)
      /\ (forall j c, (j < i)%nat -> nth_error accs j = Some c -> (c < fst best)%Q).

(** The store after [model.eval()]. *)
Definition eval_world (w : world) : world :=
  set_model (mkModel (state_dict (model w)) false) w.

(** A seed [default_rng] accepts: [None] or a non-negative integer. *)
Definition seed_ok (seed : option Z) : Prop :=
  match seed with
  | Some s => (0 <= s)%Z
  | None => True
  end.

(** The generator [default_rng(seed)] builds in the store [w]. *)
Definition rng_of (seed : option Z) (w : world) : RngState :=
  match seed with
  | Some s => seed_rng s
  | None => seed_rng (os_entropy w)
  end.

Definition eval_mode (w : world) : Prop := training (model w) = false.

Definition is_forward (ev : event) : Prop := exists x, ev = EvForward x.

(** A title made of two raw class ids. *)
Definition raw_title (ev : event) : Prop :=
  match ev with
  | EvSetTitle t => exists y g : Z, t = cell_title (str_int y) (str_int g)
  | _ => True
  end.

(** ** Vocabulary of the statements about visualize_model *)

Definition is_imshow (ev : event) : bool :=
  match ev with EvImshow _ => true | _ => false end.

(** The number of images a trace shows. *)
Definition shown (t : list event) : Z :=
  Z.of_nat (List.length (filter is_imshow t)).

(** What a piece of the rendering loop does to the image counter: from
    [k] it renders [shown t] images, never going beyond the cells of the
    grid, and the counter it returns has counted them. *)
Definition counts (n k : Z) (x : result (Z * bool) * world * list event) : Prop :=
  (k + shown (events x) <= Z.max k (2 * (n / 2)))%Z
  /\ forall k' b, outcome x = Ok (k', b) -> k' = (k + shown (events x))%Z.

(** ** Vocabulary of the statements about whole runs *)

(** A size [tensor / size] accepts: a Python int that fits a signed
    64-bit integer (beyond it line 86 raises [OverflowError]). *)
Definition int64 (z : Z) : Prop := (- 2 ^ 63 <= z < 2 ^ 63)%Z.

(** The loaders yield one label per example in the epochs below [n]. *)
Definition one_label_per_example (d : Data) (n : nat) : Prop :=
  forall e ph b, (e < n)%nat -> In b (batches d ph e) ->
    List.length (labels b) = List.length (inputs b).

(** The model gives one prediction per example. *)
Definition one_prediction_per_example : Prop :=
  forall mode p x,
    List.length (argmax1 (snd (forward mode p x))) = List.length x.

(** The calls that belong to the processing of a batch. *)
Definition is_batch_call (ev : event) : bool :=
  match ev with
  | EvZeroGrad | EvForward _ | EvBackward | EvOptimizerStep => true
  | _ => false
  end.

Definition is_optimizer_step (ev : event) : bool :=
  match ev with EvOptimizerStep => true | _ => false end.

(** The batch calls of epoch [e]. *)
Definition epoch_batch_calls (d : Data) (e : nat) : list event :=
  flat_map (batch_events Train) (batches d Train e)
    ++ flat_map (batch_events Val) (batches d Val e).

(** The number of labels the loader of phase [ph] yields in epoch [e]. *)
Definition labels_yielded (d : Data) (ph : phase) (e : nat) : Z :=
  Z.of_nat (list_sum (map (fun b => List.length (labels b)) (batches d ph e))).

(** A statistics line whose accuracy is between 0 and 1. *)
Definition acc_in_unit (ev : event) : Prop :=
  match ev with
  | EvPrintStats _ _ a => (0 <= a)%Q /\ (a <= 1)%Q
  | _ => True
  end.


(** The model is in mode [b]. *)
Definition in_mode (b : bool) (w : world) : Prop := training (model w) = b.


(** The value of [running_corrects]. *)
Definition corrects_of (running_corrects : option Z) : Z :=
  match running_corrects with Some c => c | None => 0%Z end.

(** ** Vocabulary of the statements about the pictures shown *)

(** The pictures a trace shows, in order. *)
Definition pictures (t : list event) : list Picture :=
  flat_map (fun ev => match ev with EvImshow p => [p] | _ => [] end) t.

(** The examples a loader yields, batch after batch. *)
Definition examples (dl : list Batch) : list Tensor := flat_map inputs dl.

(** The example at index [j] of a batch, if any. *)
Definition example_at (x : list Tensor) (j : nat) : list Tensor :=
  match nth_error x j with Some xj => [xj] | None => [] end.

(** What a piece of the rendering loop shows of the examples [xs] it is
    given, from the counter [k]: the first [m] of them, in order; the
    counter it returns has counted them; it returns by [return] only at
    the limit [n], and goes on only after all of [xs], none of which
    brought the counter to [n]. *)
Definition renders (n k : Z) (xs : list Tensor)
  (x : result (Z * bool) * world * list event) : Prop :=
  exists m,
    (m <= List.length xs)%nat
    /\ pictures (events x) = map to_display (firstn m xs)
    /\ forall k' b, outcome x = Ok (k', b) ->
         k' = (k + Z.of_nat m)%Z
         /\ (b = true -> k' = n)
         /\ (b = false -> m = List.length xs /\ (n <= k \/ k' < n)%Z).

(** ** Vocabulary of the statements about inference *)

(** The three collections are parallel, and every stored prediction
    differs from the true label stored with it. *)
Definition only_wrong (c : Wrong) : Prop :=
  List.length (all_wrong c) = List.length (gtruths c)
  /\ List.length (wrong_preds c) = List.length (gtruths c)
  /\ Forall (fun pt : Z * Z => fst pt <> snd pt)
            (combine (wrong_preds c) (gtruths c)).

(** The number of labels a data loader yields. *)
Definition label_count (dl : list Batch) : nat :=
  list_sum (map (fun b => List.length (labels b)) dl).

(** The calls that change parameters, gradients or the schedule. *)
Definition is_update (ev : event) : bool :=
  match ev with
  | EvZeroGrad | EvBackward | EvOptimizerStep | EvSchedulerStep
  | EvLoadStateDict => true
  | _ => false
  end.

(** The forward pass in evaluation mode leaves the state dict as it is:
    no buffer (such as the running statistics of a normalisation layer)
    is updated. *)
Definition eval_forward_pure : Prop :=
  forall p x, fst (forward false p x) = p.

(** The model has the parameters [p] and is in evaluation mode. *)
Definition evaluating (p : Params) (w : world) : Prop :=
  training (model w) = false /\ state_dict (model w) = p.

(** [I] does not depend on the model. *)
Definition model_blind (I : world -> Prop) : Prop :=
  forall w m, I w -> I (set_model m w).

(** Either the model still evaluates with the parameters [p], or the
    loop has returned and only the mode may have changed. *)
Definition still_evaluating (p : Params) (x : result (Z * bool) * world * list event)
  : Prop :=
  state_dict (model (store x)) = p
  /\ forall k, outcome x = Ok (k, false) -> training (model (store x)) = false.

End Embedding.

(** ** A small framework to run the code on

    A model with one integer weight that predicts class [x + weight] for
    the example [x]; every optimizer step adds one to the weight, and the
    optimizer state counts the scheduler steps. *)
Module Toy.

#[export] Instance toy : Framework := {|
  Tensor := Z;
  Params := Z;
  Logits := list Z;
  OptState := nat;
  Picture := Z;
  RngState := Z;
  forward := fun _ p x => (p, map (fun xi => (xi + p)%Z) x);
  argmax1 := fun out => out;
  criterion := fun _ _ => 1%Q;
  zero_grad := fun o => o;
  backward := fun _ _ o => o;
  optimizer_step := fun p o => ((p + 1)%Z, o);
  scheduler_step := fun o => S o;
  to_display := fun x => x;
  seed_rng := fun s => s;
  draw := fun st n k _ =>
            map (fun i => Z.to_nat ((st + Z.of_nat i) mod Z.of_nat n)) (seq 0 k)
|}.

(** One training batch and one validation batch of two examples, the
    same in every epoch; the validation labels are [label]. *)
Definition data (label : Z) : Data :=
  mkData (fun ph _ => match ph with
                      | Train => [mkBatch [0%Z] [0%Z]]
                      | Val => [mkBatch [0%Z; 0%Z] [label; label]]
                      end)
         (fun ph => match ph with Train => 1%Z | Val => 2%Z end).

Definition start (weight : Z) (mode : bool) : world :=
  mkWorld (mkModel weight mode) 0%nat 7%Z.

(** A data set of one batch of three examples; with weight 0 the first
    and the last are misclassified. *)
Definition two_wrong : list Batch := [mkBatch [0; 0; 0]%Z [1; 0; 2]%Z].

(** A validation split of one batch of three examples. *)
Definition three_images : list Batch := [mkBatch [0; 0; 0]%Z [0; 0; 0]%Z].

Definition names : list string := ["a"; "b"; "c"]%string.

(** The misclassified examples of [two_wrong] with weight 0. *)
Definition wrong_zeros : Wrong := mkWrong [0; 0]%Z [0; 0]%Z [1; 2]%Z.


(** A batch of three examples. *)
Definition one_batch : Batch := mkBatch [0; 0; 0]%Z [0; 0; 0]%Z.

(** A data set the model of weight 0 classifies without error, and what
    its scan collects. *)
Definition all_right : list Batch := [mkBatch [0; 0]%Z [0; 0]%Z].
Definition no_wrong : Wrong := mkWrong [] [] [].

End Toy.

(** * Properties *)

Ltac list_eq :=
  repeat rewrite app_nil_r; repeat rewrite <- app_assoc; simpl; reflexivity.

(** ** Facts about the monad *)

Section MonadFacts.

Context {W E : Type}.

Lemma bind_ok {A B} (m : M W E A) (f : A -> M W E B) w a w1 t1 :
  m w = (Ok a, w1, t1) ->
  bind m f w = (outcome (f a w1), store (f a w1), t1 ++ events (f a w1)).
Proof.
  intros Hm. unfold bind. rewrite Hm.
  destruct (f a w1) as [[r w2] t2]. reflexivity.
Qed.

Lemma bind_raise {A B} (m : M W E A) (f : A -> M W E B) w e w1 t1 :
  m w = (Raise e, w1, t1) -> bind m f w = (Raise e, w1, t1).
Proof. intros Hm. unfold bind. rewrite Hm. reflexivity. Qed.

Lemma run_eta {A} (x : result A * W * list E) :
  x = (outcome x, store x, events x).
Proof. destruct x as [[r w] t]. reflexivity. Qed.

Lemma bind_ok_inv {A B} (m : M W E A) (f : A -> M W E B) w b :
  outcome (bind m f w) = Ok b ->
  exists a w1 t1, m w = (Ok a, w1, t1) /\ outcome (f a w1) = Ok b.
Proof.
  unfold bind. destruct (m w) as [[[a|e] w1] t1]; simpl.
  - intros H. exists a, w1, t1. split; [reflexivity|].
    destruct (f a w1) as [[r w2] t2]. exact H.
  - discriminate.
Qed.

Lemma bind_ext {A B} (m : M W E A) (f g : A -> M W E B) w :
  (forall a w1, f a w1 = g a w1) -> bind m f w = bind m g w.
Proof.
  intros H. unfold bind. destruct (m w) as [[[a|e] w1] t1]; [|reflexivity].
  rewrite H. reflexivity.
Qed.

Lemma bind_assoc {A B C} (m : M W E A) (f : A -> M W E B) (g : B -> M W E C) w :
  bind (bind m f) g w = bind m (fun a => bind (f a) g) w.
Proof.
  unfold bind. destruct (m w) as [[[a|e] w1] t1]; [|reflexivity].
  destruct (f a w1) as [[[b|e] w2] t2]; [|reflexivity].
  destruct (g b w2) as [[r w3] t3]. rewrite app_assoc. reflexivity.
Qed.

Lemma foldM_app {A B} (f : B -> A -> M W E A) l1 l2 a w :
  foldM f (l1 ++ l2) a w = bind (foldM f l1 a) (foldM f l2) w.
Proof.
  revert a w. induction l1 as [|b l1 IH]; intros a w; simpl.
  - unfold bind, ret. destruct (foldM f l2 a w) as [[r w2] t2]. reflexivity.
  - rewrite bind_assoc. apply bind_ext. intros a1 w1. apply IH.
Qed.

Lemma emits_bind P {A B} (m : M W E A) (f : A -> M W E B) :
  emits P m -> (forall a, emits P (f a)) -> emits P (bind m f).
Proof.
  intros Hm Hf w. unfold bind. specialize (Hm w).
  destruct (m w) as [[[a|e] w1] t1]; simpl in *; [|exact Hm].
  specialize (Hf a w1). destruct (f a w1) as [[r w2] t2]; simpl in *.
  apply Forall_app. split; assumption.
Qed.

Lemma emits_ret P {A} (a : A) : emits P (ret a : M W E A).
Proof. intros w. constructor. Qed.

Lemma emits_raise P {A} e : emits P (raise e : M W E A).
Proof. intros w. constructor. Qed.

Lemma emits_get P : emits P (get : M W E W).
Proof. intros w. constructor. Qed.

Lemma emits_modify P f : emits P (modify f : M W E unit).
Proof. intros w. constructor. Qed.

Lemma emits_emit (P : E -> Prop) e : P e -> emits P (emit e : M W E unit).
Proof. intros He w. simpl. constructor; [exact He|constructor]. Qed.

Lemma emits_foldM P {A B} (f : B -> A -> M W E A) l :
  (forall b a, emits P (f b a)) -> forall a, emits P (foldM f l a).
Proof.
  intros Hf. induction l as [|b l IH]; intros a; simpl.
  - apply emits_ret.
  - apply emits_bind; [apply Hf|exact IH].
Qed.

(** What holds of the store after the last step of a computation that
    returned. *)
Lemma bind_returns {A B} (m : M W E A) (f : A -> M W E B) (Q : W -> Prop) w :
  (forall a w1, is_ok (outcome (f a w1)) = true -> Q (store (f a w1))) ->
  is_ok (outcome (bind m f w)) = true -> Q (store (bind m f w)).
Proof.
  intros Hf. unfold bind. destruct (m w) as [[[a|e] w1] t1]; simpl.
  - specialize (Hf a w1). destruct (f a w1) as [[r w2] t2]. exact Hf.
  - discriminate.
Qed.

Lemma preserves_bind I {A B} (m : M W E A) (f : A -> M W E B) :
  preserves I m -> (forall a, preserves I (f a)) -> preserves I (bind m f).
Proof.
  intros Hm Hf w Hw. unfold bind. specialize (Hm w Hw).
  destruct (m w) as [[[a|e] w1] t1]; simpl in *; [|exact Hm].
  specialize (Hf a w1 Hm). destruct (f a w1) as [[r w2] t2]. exact Hf.
Qed.

Lemma preserves_ret I {A} (a : A) : preserves I (ret a : M W E A).
Proof. intros w Hw. exact Hw. Qed.

Lemma preserves_raise I {A} e : preserves I (raise e : M W E A).
Proof. intros w Hw. exact Hw. Qed.

Lemma preserves_get I : preserves I (get : M W E W).
Proof. intros w Hw. exact Hw. Qed.

Lemma preserves_emit I e : preserves I (emit e : M W E unit).
Proof. intros w Hw. exact Hw. Qed.

Lemma preserves_foldM I {A B} (f : B -> A -> M W E A) l :
  (forall b a, preserves I (f b a)) -> forall a, preserves I (foldM f l a).
Proof.
  intros Hf. induction l as [|b l IH]; intros a; simpl.
  - apply preserves_ret.
  - apply preserves_bind; [apply Hf|exact IH].
Qed.

Lemma emits_ret_bind P {A B} (a : A) (f : A -> M W E B) :
  emits P (f a) -> emits P (bind (ret a) f).
Proof.
  intros Hf w. unfold bind, ret. specialize (Hf w).
  destruct (f a w) as [[r w2] t2]. exact Hf.
Qed.

End MonadFacts.

Unset Implicit Arguments.

(** ** The training driver *)

Section TrainModel.

Context {F : Framework}.

Lemma batch_body_run ph b r w :
  exists r' w',
    batch_body ph b r w = (Ok r', w', batch_events ph b) /\ snd r' <> None.
Proof.
  destruct r as [rl rc]. unfold batch_body, batch_events.
  unfold optimizer_zero_grad, call_model, loss_backward, do_optimizer_step.
  unfold bind, modify, emit, get, ret; simpl.
  destruct (forward (training (model w)) (state_dict (model w)) (inputs b))
    as [p out] eqn:Hf; simpl.
  destruct ph; simpl.
  - destruct (optimizer_step p (backward out (labels b) (zero_grad (optim w))))
      as [p' o'] eqn:Ho; simpl.
    eexists; eexists; split; [reflexivity|]. simpl. destruct rc; discriminate.
  - eexists; eexists; split; [reflexivity|]. simpl. destruct rc; discriminate.
Qed.

Lemma batches_run ph bs r w :
  exists r' w',
    foldM (batch_body ph) bs r w = (Ok r', w', flat_map (batch_events ph) bs)
    /\ (bs <> [] -> snd r' <> None)
    /\ (bs = [] -> r' = r).
Proof.
  revert r w. induction bs as [|b bs IH]; intros r w; simpl.
  - exists r, w. split; [reflexivity|]. split; [congruence|reflexivity].
  - destruct (batch_body_run ph b r w) as (r1 & w1 & H1 & Hn1).
    destruct (IH r1 w1) as (r2 & w2 & H2 & Hne & Hnil).
    exists r2, w2. rewrite (bind_ok _ _ _ H1), H2. simpl.
    split; [reflexivity|]. split; [|discriminate].
    intros _. destruct bs as [|b' bs'].
    + rewrite (Hnil eq_refl). exact Hn1.
    + apply Hne. discriminate.
Qed.

Lemma mode_switch_run ph w :
  (if phase_eqb ph Train then model_train true else model_eval) w
  = (Ok tt, set_model (mkModel (state_dict (model w)) (phase_eqb ph Train)) w,
     [EvModelTrain (phase_eqb ph Train)]).
Proof. destruct ph; reflexivity. Qed.

Lemma phase_body_ok d e ph best w :
  dataset_sizes d ph <> 0%Z -> batches d ph e <> [] ->
  exists w' l a,
    phase_body d e ph best w
    = (Ok (update_best ph a best (state_dict (model w'))), w',
       phase_pre d e ph ++ [EvPrintStats ph l a]).
Proof.
  intros Hsize Hbs. destruct best as [b wts]. unfold phase_body.
  rewrite (bind_ok _ _ _ (mode_switch_run ph w)).
  set (w0 := set_model _ w).
  destruct (batches_run ph (batches d ph e) (0%Q, None) w0)
    as ([rl rc] & w1 & Hrun & Hne & _).
  rewrite (bind_ok _ _ _ Hrun).
  specialize (Hne Hbs). simpl in Hne.
  destruct rc as [c|]; [clear Hne|congruence].
  apply Z.eqb_neq in Hsize.
  unfold phase_pre, update_best, do_scheduler_step, deepcopy_state_dict.
  destruct ph.
  - eexists. exists (rl / inject_Z (dataset_sizes d Train))%Q,
      (inject_Z c / inject_Z (dataset_sizes d Train))%Q.
    unfold bind, modify, emit, get, ret, outcome, store, events; simpl.
    rewrite Hsize; simpl. rewrite <- app_assoc. reflexivity.
  - eexists. exists (rl / inject_Z (dataset_sizes d Val))%Q,
      (inject_Z c / inject_Z (dataset_sizes d Val))%Q.
    unfold bind, modify, emit, get, ret, outcome, store, events; simpl.
    rewrite Hsize; simpl.
    destruct (acc_gtb _ b); simpl; rewrite app_nil_r; reflexivity.
Qed.

Lemma phase_body_raise d e ph best w :
  dataset_sizes d ph = 0%Z \/ batches d ph e = [] ->
  exists ex w', phase_body d e ph best w = (Raise ex, w', phase_pre d e ph).
Proof.
  intros Hbad. destruct best as [b wts]. unfold phase_body.
  rewrite (bind_ok _ _ _ (mode_switch_run ph w)).
  set (w0 := set_model _ w).
  destruct (batches_run ph (batches d ph e) (0%Q, None) w0)
    as ([rl rc] & w1 & Hrun & _ & Hnil).
  rewrite (bind_ok _ _ _ Hrun).
  unfold phase_pre, do_scheduler_step.
  unfold bind, modify, emit, get, ret, raise, outcome, store, events; simpl.
  destruct (Z.eqb_spec (dataset_sizes d ph) 0) as [Hz|Hz].
  - destruct ph; simpl; do 2 eexists;
      rewrite ?app_nil_r; reflexivity.
  - destruct Hbad as [Hbad|Hbad]; [contradiction|].
    specialize (Hnil Hbad). injection Hnil as -> ->.
    destruct ph; simpl; do 2 eexists;
      rewrite ?app_nil_r; reflexivity.
Qed.

Lemma foldM_single {W E A B} (f : B -> A -> M W E A) b a w :
  foldM f [b] a w = f b a w.
Proof.
  simpl. unfold bind, ret. destruct (f b a w) as [[[a1|ex] w1] t1];
    [rewrite app_nil_r|]; reflexivity.
Qed.

Lemma epoch_body_ok d N e best w :
  good_epoch d e ->
  exists w' l1 a1 l a,
    epoch_body d N e best w
    = (Ok (update_best Val a best (state_dict (model w'))), w',
       epoch_events d N e l1 a1 l a).
Proof.
  intros Hgood. unfold epoch_body, epoch_events.
  destruct (Hgood Train) as [Hs1 Hb1]. destruct (Hgood Val) as [Hs2 Hb2].
  destruct (@phase_body_ok d e Train best w Hs1 Hb1) as (w1 & l1 & a1 & H1).
  destruct (@phase_body_ok d e Val best w1 Hs2 Hb2) as (w2 & l & a & H2).
  exists w2, l1, a1, l, a.
  change (foldM (phase_body d e) [Train; Val] best)
    with (bind (phase_body d e Train best) (foldM (phase_body d e) [Val])).
  unfold bind at 1. unfold emit at 1.
  rewrite (bind_ok _ _ _ H1). unfold update_best at 1 2 3. simpl phase_eqb.
  simpl andb. cbv iota. rewrite foldM_single, H2. reflexivity.
Qed.

Lemma calls_app t1 t2 : calls (t1 ++ t2) = calls t1 ++ calls t2.
Proof. apply filter_app. Qed.

Lemma val_accs_app t1 t2 : val_accs (t1 ++ t2) = val_accs t1 ++ val_accs t2.
Proof. apply flat_map_app. Qed.

Lemma calls_batches ph bs :
  calls (flat_map (batch_events ph) bs) = flat_map (batch_events ph) bs.
Proof.
  induction bs as [|b bs IH]; [reflexivity|].
  cbn [flat_map]. rewrite calls_app, IH.
  destruct ph; reflexivity.
Qed.

Lemma val_accs_batches ph bs : val_accs (flat_map (batch_events ph) bs) = [].
Proof.
  induction bs as [|b bs IH]; [reflexivity|].
  cbn [flat_map]. rewrite val_accs_app, IH.
  destruct ph; reflexivity.
Qed.

Lemma calls_phase_pre_train d e :
  calls (phase_pre d e Train)
  = EvModelTrain true
      :: flat_map (batch_events Train) (batches d Train e) ++ [EvSchedulerStep].
Proof.
  unfold phase_pre. simpl. f_equal.
  change (filter is_call ?t) with (calls t).
  rewrite calls_app, calls_batches. reflexivity.
Qed.

Lemma calls_phase_pre_val d e : calls (phase_pre d e Val) = val_calls d e.
Proof.
  unfold phase_pre, val_calls. simpl. f_equal.
  change (filter is_call ?t) with (calls t).
  rewrite calls_app, calls_batches. apply app_nil_r.
Qed.

Lemma val_accs_phase_pre d e ph : val_accs (phase_pre d e ph) = [].
Proof.
  unfold phase_pre. simpl. rewrite val_accs_app, val_accs_batches.
  destruct ph; reflexivity.
Qed.

Lemma calls_epoch_events d N e l1 a1 l a :
  calls (epoch_events d N e l1 a1 l a) = epoch_calls d N e.
Proof.
  unfold epoch_events, epoch_calls, train_calls.
  change (calls (?x :: ?t)) with (x :: calls t).
  rewrite !calls_app, calls_phase_pre_train, calls_phase_pre_val.
  unfold val_calls. simpl. list_eq.
Qed.

Lemma val_accs_epoch_events d N e l1 a1 l a :
  val_accs (epoch_events d N e l1 a1 l a) = [a].
Proof.
  unfold epoch_events.
  change (val_accs (?x :: ?t)) with (val_accs t).
  rewrite !val_accs_app, !val_accs_phase_pre. reflexivity.
Qed.

Lemma phase_dec d e ph :
  {dataset_sizes d ph <> 0%Z /\ batches d ph e <> []}
  + {dataset_sizes d ph = 0%Z \/ batches d ph e = []}.
Proof.
  destruct (Z.eq_dec (dataset_sizes d ph) 0) as [Hz|Hz]; [right; left; exact Hz|].
  destruct (batches d ph e) as [|b bs]; [right; right; reflexivity|].
  left. split; [exact Hz|discriminate].
Qed.

Lemma classic_good d e : good_epoch d e \/ ~ good_epoch d e.
Proof.
  destruct (phase_dec d e Train) as [H1|H1];
    [destruct (phase_dec d e Val) as [H2|H2]|].
  - left. intros [|]; assumption.
  - right. intros H. destruct (H Val) as [Hs Hb]. destruct H2; contradiction.
  - right. intros H. destruct (H Train) as [Hs Hb]. destruct H1; contradiction.
Qed.

Lemma epoch_body_raise d N e best w :
  ~ good_epoch d e ->
  exists ex w' t,
    epoch_body d N e best w = (Raise ex, w', t)
    /\ val_accs t = []
    /\ (calls t = train_calls d N e \/ calls t = epoch_calls d N e).
Proof.
  intros Hbad. unfold epoch_body.
  change (foldM (phase_body d e) [Train; Val] best)
    with (bind (phase_body d e Train best) (foldM (phase_body d e) [Val])).
  unfold bind at 1. unfold emit at 1.
  destruct (phase_dec d e Train) as [[Hs1 Hb1]|Hbad1].
  - destruct (phase_dec d e Val) as [[Hs2 Hb2]|Hbad2].
    { exfalso. apply Hbad. intros [|]; split; assumption. }
    destruct (@phase_body_ok d e Train best w Hs1 Hb1) as (w1 & l1 & a1 & H1).
    rewrite (bind_ok _ _ _ H1). unfold update_best at 1 2 3. simpl phase_eqb.
    simpl andb. cbv iota. rewrite foldM_single.
    destruct (@phase_body_raise d e Val best w1 Hbad2) as (ex & w2 & H2).
    rewrite H2. cbn [outcome store events fst snd].
    do 3 eexists. split; [reflexivity|]. split.
    + rewrite !val_accs_app, !val_accs_phase_pre. reflexivity.
    + right. unfold epoch_calls, train_calls.
      rewrite !calls_app, calls_phase_pre_train, calls_phase_pre_val.
      unfold val_calls. simpl. list_eq.
  - destruct (@phase_body_raise d e Train best w Hbad1) as (ex & w1 & H1).
    rewrite (bind_raise _ _ _ H1).
    do 3 eexists. split; [reflexivity|]. split.
    + rewrite val_accs_app, val_accs_phase_pre. reflexivity.
    + left. unfold train_calls.
      rewrite calls_app, calls_phase_pre_train. reflexivity.
Qed.

(** *** The epoch loop, one epoch at a time *)

Lemma epochs_loop_unfold d N k w :
  epochs_loop d N k w
  = foldM (epoch_body d N) (seq 0 k) (0%Q, state_dict (model w)) w.
Proof.
  unfold epochs_loop, deepcopy_state_dict, bind, get, ret. simpl.
  destruct (foldM _ _ _ w) as [[r w2] t2]. reflexivity.
Qed.

Lemma epochs_loop_S d N k w :
  epochs_loop d N (S k) w
  = bind (epochs_loop d N k) (epoch_body d N k) w.
Proof.
  rewrite epochs_loop_unfold, seq_S, foldM_app.
  rewrite (bind_ext _ _ (epoch_body d N k)) by (intros; apply foldM_single).
  unfold bind. rewrite epochs_loop_unfold. reflexivity.
Qed.

Lemma train_model_ok d N w best w' t :
  epochs_loop d N (Z.to_nat N) w = (Ok best, w', t) ->
  train_model d N w
  = (Ok (mkModel (snd best) (training (model w'))),
     set_model (mkModel (snd best) (training (model w'))) w',
     t ++ [EvPrintBest (fst best); EvLoadStateDict]).
Proof.
  intros H. unfold train_model. rewrite (bind_ok _ _ _ H). reflexivity.
Qed.

Lemma train_model_raise d N w ex w' t :
  epochs_loop d N (Z.to_nat N) w = (Raise ex, w', t) ->
  train_model d N w = (Raise ex, w', t).
Proof.
  intros H. unfold train_model. apply bind_raise. exact H.
Qed.

(** *** The course of a run *)

Lemma epochs_loop_calls d N w k :
  (exists best w' t,
      epochs_loop d N k w = (Ok best, w', t)
      /\ calls t = flat_map (epoch_calls d N) (seq 0 k))
  \/ (exists ex w' t j partial,
         epochs_loop d N k w = (Raise ex, w', t)
         /\ (j < k)%nat
         /\ calls t = flat_map (epoch_calls d N) (seq 0 j) ++ partial
         /\ (partial = train_calls d N j \/ partial = epoch_calls d N j)).
Proof.
  induction k as [|k IH].
  - left. rewrite epochs_loop_unfold. simpl. do 3 eexists. split; reflexivity.
  - rewrite epochs_loop_S.
    destruct IH as [(best & w1 & t1 & Hrun & Hcalls)
                   |(ex & w1 & t1 & j & partial & Hrun & Hj & Hcalls & Hp)].
    + rewrite (bind_ok _ _ _ Hrun).
      destruct (classic_good d k) as [Hgood|Hbad].
      * left. destruct (@epoch_body_ok d N k best w1 Hgood)
          as (w2 & l1 & a1 & l & a & H2).
        rewrite H2. cbn [outcome store events fst snd].
        do 3 eexists. split; [reflexivity|].
        rewrite calls_app, Hcalls, calls_epoch_events, seq_S, flat_map_app.
        cbn [flat_map Nat.add]. rewrite app_nil_r. reflexivity.
      * right. destruct (@epoch_body_raise d N k best w1 Hbad)
          as (ex & w2 & t2 & H2 & _ & Hp).
        rewrite H2. cbn [outcome store events fst snd].
        exists ex, w2, (t1 ++ t2), k, (calls t2).
        split; [reflexivity|]. split; [lia|].
        split; [rewrite calls_app, Hcalls; reflexivity|exact Hp].
    + right. rewrite (bind_raise _ _ _ Hrun).
      exists ex, w1, t1, j, partial.
      split; [reflexivity|]. split; [lia|]. split; assumption.
Qed.

Lemma filter_calls (p : event -> bool) t :
  (forall ev, p ev = true -> is_call ev = true) ->
  filter p (calls t) = filter p t.
Proof.
  intros Himp. unfold calls. induction t as [|ev t IH]; [reflexivity|].
  simpl. destruct (is_call ev) eqn:Hc; simpl.
  - rewrite IH. reflexivity.
  - destruct (p ev) eqn:Hp; [|exact IH].
    rewrite (Himp ev Hp) in Hc. discriminate.
Qed.

Lemma steps_batches ph bs :
  filter is_scheduler_step (flat_map (batch_events ph) bs) = [].
Proof.
  induction bs as [|b bs IH]; [reflexivity|].
  cbn [flat_map]. rewrite filter_app, IH. destruct ph; reflexivity.
Qed.

Lemma headers_batches ph bs :
  filter is_epoch_header (flat_map (batch_events ph) bs) = [].
Proof.
  induction bs as [|b bs IH]; [reflexivity|].
  cbn [flat_map]. rewrite filter_app, IH. destruct ph; reflexivity.
Qed.

Lemma steps_train_calls d N e :
  filter is_scheduler_step (train_calls d N e) = [EvSchedulerStep].
Proof.
  unfold train_calls. simpl. rewrite filter_app, steps_batches. reflexivity.
Qed.

Lemma headers_train_calls d N e :
  filter is_epoch_header (train_calls d N e) = [EvPrintEpoch e (N - 1)].
Proof.
  unfold train_calls. simpl. rewrite filter_app, headers_batches. reflexivity.
Qed.

Lemma steps_epoch_calls d N e :
  filter is_scheduler_step (epoch_calls d N e) = [EvSchedulerStep].
Proof.
  unfold epoch_calls, val_calls.
  rewrite filter_app, steps_train_calls. simpl.
  rewrite steps_batches. reflexivity.
Qed.

Lemma headers_epoch_calls d N e :
  filter is_epoch_header (epoch_calls d N e) = [EvPrintEpoch e (N - 1)].
Proof.
  unfold epoch_calls, val_calls.
  rewrite filter_app, headers_train_calls. simpl.
  rewrite headers_batches. reflexivity.
Qed.

Lemma steps_epochs d N l :
  List.length (filter is_scheduler_step (flat_map (epoch_calls d N) l))
  = List.length l.
Proof.
  induction l as [|e l IH]; [reflexivity|].
  cbn [flat_map]. rewrite filter_app, steps_epoch_calls. simpl.
  rewrite IH. reflexivity.
Qed.

Lemma headers_epochs d N l :
  List.length (filter is_epoch_header (flat_map (epoch_calls d N) l))
  = List.length l.
Proof.
  induction l as [|e l IH]; [reflexivity|].
  cbn [flat_map]. rewrite filter_app, headers_epoch_calls. simpl.
  rewrite IH. reflexivity.
Qed.

(** C4.  In every run of [train_model], whether it returns or raises,
    the epoch headers and all the calls on the model, the optimizer and
    the scheduler occur as the calls of whole epochs [0 .. k-1] followed,
    only in a run that raises, by those of the epoch that failed.  In
    the calls of an epoch the scheduler step comes once, after the calls
    of every training batch (zero_grad, forward pass, backward pass and
    optimizer step, the last batch included) and before the switch to
    evaluation mode; the calls of a validation phase hold no scheduler
    step.  A run that returns went through all [num_epochs] epochs, and
    the number of scheduler steps is the number of epochs begun. *)
Theorem train_model_scheduler_once_per_epoch d N w :
  exists k partial,
    calls (events (train_model d N w))
    = flat_map (epoch_calls d N) (seq 0 k) ++ partial
    /\ ((is_ok (outcome (train_model d N w)) = true
         /\ k = Z.to_nat N /\ partial = [])
        \/ (is_ok (outcome (train_model d N w)) = false
            /\ (k < Z.to_nat N)%nat
            /\ (partial = train_calls d N k \/ partial = epoch_calls d N k)))
    /\ List.length (filter is_scheduler_step (events (train_model d N w)))
       = List.length (filter is_epoch_header (events (train_model d N w)))
    /\ (forall e, filter is_scheduler_step (val_calls d e) = []).
Proof.
  assert (Hcount : forall k partial t,
             calls t = flat_map (epoch_calls d N) (seq 0 k) ++ partial ->
             filter is_scheduler_step partial = [EvSchedulerStep]
             /\ (exists h, filter is_epoch_header partial = [h])
             \/ partial = [] ->
             List.length (filter is_scheduler_step t)
             = List.length (filter is_epoch_header t)).
  { intros k partial t Hc Hp.
    rewrite <- (filter_calls is_scheduler_step t), <- (filter_calls is_epoch_header t), Hc
      by (intros [] Hev; try discriminate Hev; reflexivity).
    rewrite !filter_app, !length_app, steps_epochs, headers_epochs.
    destruct Hp as [[Hs [h Hh]]| ->]; [rewrite Hs, Hh|]; reflexivity. }
  assert (Hval : forall e, filter is_scheduler_step (val_calls d e) = []).
  { intros e. unfold val_calls. simpl. apply steps_batches. }
  destruct (epochs_loop_calls d N w (Z.to_nat N))
    as [(best & w1 & t1 & Hrun & Hcalls)
       |(ex & w1 & t1 & j & partial & Hrun & Hj & Hcalls & Hp)].
  - exists (Z.to_nat N), [].
    rewrite (train_model_ok _ _ _ _ _ _ Hrun). cbn [outcome store events fst snd is_ok].
    assert (Hc : calls (t1 ++ [EvPrintBest (fst best); EvLoadStateDict])
                 = flat_map (epoch_calls d N) (seq 0 (Z.to_nat N)) ++ []).
    { rewrite calls_app, Hcalls. reflexivity. }
    split; [exact Hc|]. split; [left; auto|]. split; [|exact Hval].
    apply (Hcount _ _ _ Hc). right. reflexivity.
  - exists j, partial.
    rewrite (train_model_raise _ _ _ _ _ _ Hrun). cbn [outcome store events fst snd is_ok].
    split; [exact Hcalls|]. split; [right; auto|]. split; [|exact Hval].
    apply (Hcount _ _ _ Hcalls). left.
    destruct Hp as [-> | ->].
    + rewrite steps_train_calls, headers_train_calls. eauto.
    + rewrite steps_epoch_calls, headers_epoch_calls. eauto.
Qed.

(** *** The best snapshot *)

Lemma acc_gtb_true x y : acc_gtb x y = true -> (y < x)%Q.
Proof.
  unfold acc_gtb. intros H. apply Qgt_alt.
  destruct (x ?= y)%Q; [discriminate|discriminate|reflexivity].
Qed.

Lemma acc_gtb_false x y : acc_gtb x y = false -> (x <= y)%Q.
Proof.
  unfold acc_gtb. intros H. apply Qle_alt.
  destruct (x ?= y)%Q; [discriminate|discriminate|discriminate H].
Qed.

Lemma nth_error_snoc {A} (l : list A) a j c :
  nth_error (l ++ [a]) j = Some c ->
  nth_error l j = Some c \/ (j = List.length l /\ c = a).
Proof.
  intros H. destruct (Nat.lt_ge_cases j (List.length l)) as [Hlt|Hge].
  - left. rewrite nth_error_app1 in H by exact Hlt. exact H.
  - right. rewrite nth_error_app2 in H by exact Hge.
    destruct (j - List.length l)%nat as [|n] eqn:Hn; simpl in H.
    + split; [lia|congruence].
    + destruct n; discriminate.
Qed.

Lemma best_of_step accs snap p0 best a now :
  snap (List.length accs) = now ->
  best_of accs snap p0 best ->
  best_of (accs ++ [a]) snap p0 (update_best Val a best now).
Proof.
  intros Hnow Hinv. unfold update_best. simpl phase_eqb. simpl andb.
  destruct (acc_gtb a (fst best)) eqn:Hgt.
  - apply acc_gtb_true in Hgt. right. exists (List.length accs). simpl.
    assert (Hle : forall j c, nth_error accs j = Some c -> (c <= fst best)%Q).
    { destruct Hinv as [[-> Hall]|(i & _ & _ & _ & Hall & _)].
      - intros j c Hc. apply Hall. eapply nth_error_In. exact Hc.
      - exact Hall. }
    assert (Hpos : (0 <= fst best)%Q).
    { destruct Hinv as [[-> _]|(i & _ & Hp & _)];
        [apply Qle_refl|apply Qlt_le_weak; exact Hp]. }
    split; [rewrite nth_error_app2, Nat.sub_diag by lia; reflexivity|].
    split; [eapply Qle_lt_trans; eassumption|].
    split; [symmetry; exact Hnow|].
    split.
    + intros j c Hc. apply nth_error_snoc in Hc.
      destruct Hc as [Hc|[_ ->]]; [|apply Qle_refl].
      apply Qlt_le_weak. eapply Qle_lt_trans; [eapply Hle; exact Hc|exact Hgt].
    + intros j c Hj Hc. apply nth_error_snoc in Hc.
      destruct Hc as [Hc|[Hj' _]]; [|lia].
      eapply Qle_lt_trans; [eapply Hle; exact Hc|exact Hgt].
  - apply acc_gtb_false in Hgt.
    destruct Hinv as [[-> Hall]|(i & Hi & Hp & Hs & Hall & Hbefore)].
    + left. split; [reflexivity|]. intros c Hc.
      apply in_app_or in Hc. destruct Hc as [Hc|[<-|[]]];
        [apply Hall; exact Hc|exact Hgt].
    + right. exists i.
      assert (Hlt : (i < List.length accs)%nat).
      { apply nth_error_Some. rewrite Hi. discriminate. }
      split; [rewrite nth_error_app1 by exact Hlt; exact Hi|].
      split; [exact Hp|]. split; [exact Hs|]. split.
      * intros j c Hc. apply nth_error_snoc in Hc.
        destruct Hc as [Hc|[_ ->]]; [eapply Hall; exact Hc|exact Hgt].
      * intros j c Hj Hc. apply nth_error_snoc in Hc.
        destruct Hc as [Hc|[Hj' _]]; [eapply Hbefore; eassumption|lia].
Qed.

Lemma epochs_loop_best d N w k :
  (forall e, (e < k)%nat -> good_epoch d e) ->
  exists best w' t,
    epochs_loop d N k w = (Ok best, w', t)
    /\ List.length (val_accs t) = k
    /\ best_of (val_accs t) (fun e => snapshot_at d N e w)
               (state_dict (model w)) best.
Proof.
  induction k as [|k IH]; intros Hgood.
  - rewrite epochs_loop_unfold. simpl. do 3 eexists.
    split; [reflexivity|]. split; [reflexivity|].
    left. split; [reflexivity|]. intros a [].
  - destruct IH as (best & w1 & t1 & Hrun & Hlen & Hinv).
    { intros e He. apply Hgood. lia. }
    destruct (epoch_body_ok d N k best w1 (Hgood k (Nat.lt_succ_diag_r k)))
      as (w2 & l1 & a1 & l & a & H2).
    assert (Hrun' : epochs_loop d N (S k) w
                    = (Ok (update_best Val a best (state_dict (model w2))), w2,
                       t1 ++ epoch_events d N k l1 a1 l a)).
    { rewrite epochs_loop_S, (bind_ok _ _ _ Hrun), H2. reflexivity. }
    do 3 eexists. split; [exact Hrun'|].
    rewrite val_accs_app, val_accs_epoch_events.
    split; [rewrite length_app, Hlen; simpl; lia|].
    apply best_of_step; [|exact Hinv].
    rewrite Hlen. unfold snapshot_at. rewrite Hrun'. reflexivity.
Qed.

Lemma epochs_loop_ok_good d N w k best w' t :
  epochs_loop d N k w = (Ok best, w', t) ->
  forall e, (e < k)%nat -> good_epoch d e.
Proof.
  revert best w' t. induction k as [|k IH]; intros best w' t Hrun e He; [lia|].
  rewrite epochs_loop_S in Hrun. unfold bind in Hrun.
  destruct (epochs_loop d N k w) as [[[b1|ex] w1] t1] eqn:Hk; [|discriminate].
  destruct (classic_good d k) as [Hgood|Hbad].
  - destruct (Nat.eq_dec e k) as [->|Hne]; [exact Hgood|].
    apply (IH b1 w1 t1 eq_refl). lia.
  - destruct (epoch_body_raise d N k b1 w1 Hbad) as (ex & w2 & t2 & H2 & _).
    rewrite H2 in Hrun. discriminate.
Qed.

(** [train_model] returns exactly when every phase of every epoch can
    finish. *)
Lemma train_model_returns_iff d N w :
  is_ok (outcome (train_model d N w)) = true
  <-> forall e, (e < Z.to_nat N)%nat -> good_epoch d e.
Proof.
  split.
  - intros Hok.
    destruct (epochs_loop d N (Z.to_nat N) w) as [[[best|ex] w1] t1] eqn:Hrun.
    + eapply epochs_loop_ok_good. exact Hrun.
    + rewrite (train_model_raise _ _ _ _ _ _ Hrun) in Hok. discriminate.
  - intros Hgood.
    destruct (epochs_loop_best d N w (Z.to_nat N) Hgood)
      as (best & w1 & t1 & Hrun & _).
    rewrite (train_model_ok _ _ _ _ _ _ Hrun). reflexivity.
Qed.

Lemma train_model_best d N w :
  (forall e, (e < Z.to_nat N)%nat -> good_epoch d e) ->
  exists best m,
    outcome (train_model d N w) = Ok m
    /\ state_dict m = snd best
    /\ List.length (val_accs (events (train_model d N w))) = Z.to_nat N
    /\ best_of (val_accs (events (train_model d N w)))
               (fun e => snapshot_at d N e w) (state_dict (model w)) best.
Proof.
  intros Hgood.
  destruct (epochs_loop_best d N w (Z.to_nat N) Hgood)
    as (best & w1 & t1 & Hrun & Hlen & Hinv).
  exists best. eexists.
  rewrite (train_model_ok _ _ _ _ _ _ Hrun). cbn [outcome store events fst snd].
  rewrite val_accs_app.
  change (val_accs [EvPrintBest (fst best); EvLoadStateDict]) with (@nil Q).
  rewrite app_nil_r.
  split; [reflexivity|]. split; [reflexivity|]. split; assumption.
Qed.

(** C1, amended.  When every phase of every epoch can finish,
    [train_model] returns, and the parameters of the model it returns
    are: the snapshot taken at the end of the validation phase of epoch
    [i], when the accuracy [a] recorded there exceeds the baseline 0, no
    epoch recorded a higher one, and every earlier epoch recorded a
    strictly lower one (the earliest epoch among ties); the initial
    parameters, when no recorded validation accuracy exceeds 0. *)
Theorem train_model_returns_best d N w :
  (forall e, (e < Z.to_nat N)%nat -> good_epoch d e) ->
  exists m,
    outcome (train_model d N w) = Ok m
    /\ List.length (val_accs (events (train_model d N w))) = Z.to_nat N
    /\ (forall i a,
           nth_error (val_accs (events (train_model d N w))) i = Some a ->
           (0 < a)%Q ->
           (forall j c, nth_error (val_accs (events (train_model d N w))) j = Some c ->
                        (c <= a)%Q) ->
           (forall j c, (j < i)%nat ->
                        nth_error (val_accs (events (train_model d N w))) j = Some c ->
                        (c < a)%Q) ->
           state_dict m = snapshot_at d N i w)
    /\ ((forall a, In a (val_accs (events (train_model d N w))) -> (a <= 0)%Q) ->
        state_dict m = state_dict (model w)).
Proof.
  intros Hgood.
  destruct (train_model_best d N w Hgood) as (best & m & Hm & Hsd & Hlen & Hinv).
  exists m. split; [exact Hm|]. split; [exact Hlen|].
  set (accs := val_accs (events (train_model d N w))) in *.
  split.
  - intros i a Hi Hpos Hmax Hfirst.
    destruct Hinv as [[_ Hall]|(i0 & Hi0 & Hp0 & Hs0 & Hmax0 & Hfirst0)].
    + exfalso. apply (Qlt_irrefl 0).
      eapply Qlt_le_trans; [exact Hpos|].
      apply Hall. eapply nth_error_In. exact Hi.
    + rewrite Hsd, Hs0.
      destruct (Nat.lt_trichotomy i i0) as [Hlt|[->|Hgt]]; [|reflexivity|].
      * exfalso. apply (Qlt_irrefl a).
        eapply Qlt_le_trans; [eapply Hfirst0; eassumption|].
        eapply Hmax. exact Hi0.
      * exfalso. apply (Qlt_irrefl a).
        eapply Qle_lt_trans; [eapply Hmax0; exact Hi|].
        eapply Hfirst; eassumption.
  - intros Hzero.
    destruct Hinv as [[Hb _]|(i0 & Hi0 & Hp0 & _)].
    + rewrite Hsd, Hb. reflexivity.
    + exfalso. apply (Qlt_irrefl 0).
      eapply Qlt_le_trans; [exact Hp0|].
      apply Hzero. eapply nth_error_In. exact Hi0.
Qed.

(** C6.  When every phase of every epoch can finish and every recorded
    validation accuracy is 0, [train_model] returns the model with the
    parameters it had at entry. *)
Theorem train_model_all_zero_keeps_initial d N w :
  (forall e, (e < Z.to_nat N)%nat -> good_epoch d e) ->
  (forall a, In a (val_accs (events (train_model d N w))) -> (a == 0)%Q) ->
  exists m,
    outcome (train_model d N w) = Ok m
    /\ state_dict m = state_dict (model w).
Proof.
  intros Hgood Hzero.
  destruct (train_model_best d N w Hgood) as (best & m & Hm & Hsd & _ & Hinv).
  exists m. split; [exact Hm|].
  destruct Hinv as [[Hb _]|(i0 & Hi0 & Hp0 & _)].
  - rewrite Hsd, Hb. reflexivity.
  - exfalso. apply (Qlt_irrefl 0).
    eapply Qlt_le_trans; [exact Hp0|].
    rewrite (Hzero (fst best)); [apply Qle_refl|].
    eapply nth_error_In. exact Hi0.
Qed.

(** C9.  With [num_epochs = 0] the epoch loop body does not run: the
    only events are the final report and the restore, the store (model,
    optimizer and scheduler) is as at entry, and the model returned is
    the model at entry, parameters and mode. *)
Theorem train_model_zero_epochs d w :
  train_model d 0 w = (Ok (model w), w, [EvPrintBest 0; EvLoadStateDict]).
Proof. destruct w as [[p t] o s]. reflexivity. Qed.

End TrainModel.

(** ** The error explorer *)

Section ExploreWrong.

Context {F : Framework}.

Lemma seed_ok_dec seed :
  {seed_ok seed} + {exists s, seed = Some s /\ (s < 0)%Z}.
Proof.
  destruct seed as [s|]; [|left; exact I].
  destruct (Z_lt_dec s 0) as [Hneg|Hpos].
  - right. exists s. split; [reflexivity|exact Hneg].
  - left. simpl. lia.
Qed.

(** A negative seed: [default_rng] raises after [model.eval()], before
    the scan. *)
Lemma sample_wrong_negative_seed dl s replace w :
  (s < 0)%Z ->
  sample_wrong dl (Some s) replace w
  = (Raise ValueError, eval_world w, [EvModelTrain false]).
Proof.
  intros Hneg. unfold sample_wrong, model_eval, model_train, default_rng.
  apply Z.ltb_lt in Hneg. rewrite Hneg.
  unfold bind, modify, emit, raise. reflexivity.
Qed.

Lemma sample_wrong_unfold dl seed replace w :
  seed_ok seed ->
  sample_wrong dl seed replace w
  = prepend (EvModelTrain false)
      (bind (collect_wrong dl)
            (fun c =>
               bind (rng_choice (rng_of seed w) (List.length (gtruths c)) 25 replace)
                    (fun ixs => ret (c, ixs)))
            (eval_world w)).
Proof.
  intros Hseed.
  unfold sample_wrong, model_eval, model_train, default_rng, rng_of, prepend.
  destruct seed as [s|];
    [apply Z.ltb_ge in Hseed; rewrite Hseed|];
    unfold bind, modify, emit, get, ret; simpl;
    fold (eval_world w);
    destruct (collect_wrong dl (eval_world w)) as [[[c|ex] w1] t1]; simpl;
    try reflexivity;
    destruct (rng_choice _ _ 25 replace w1) as [[[ixs|ex] w2] t2];
    reflexivity.
Qed.

Lemma rng_choice_too_few rng n w :
  (n < 25)%nat -> rng_choice rng n 25 false w = (Raise ValueError, w, []).
Proof.
  intros Hn. unfold rng_choice.
  destruct (n =? 0)%nat; [reflexivity|]. simpl.
  destruct (Nat.ltb_spec n 25) as [_|Hge]; [reflexivity|lia].
Qed.

Lemma rng_choice_ok_inv rng n k replace w ixs :
  outcome (rng_choice rng n k replace w) = Ok ixs -> ixs = draw rng n k replace.
Proof.
  unfold rng_choice.
  destruct ((n =? 0)%nat && negb (k =? 0)%nat); [discriminate|].
  destruct (negb replace && (n <? k)%nat); [discriminate|].
  unfold ret, outcome. simpl. intros H. injection H as <-. reflexivity.
Qed.

Lemma sample_wrong_ok_inv dl seed replace w c ixs :
  outcome (sample_wrong dl seed replace w) = Ok (c, ixs) ->
  seed_ok seed
  /\ exists w1 t1,
      collect_wrong dl (eval_world w) = (Ok c, w1, t1)
      /\ ixs = draw (rng_of seed w) (List.length (gtruths c)) 25 replace.
Proof.
  destruct (seed_ok_dec seed) as [Hseed|(s & -> & Hneg)];
    [|rewrite (sample_wrong_negative_seed dl s replace w Hneg); discriminate].
  rewrite (sample_wrong_unfold dl seed replace w Hseed).
  unfold prepend, outcome at 1. simpl.
  intros H. split; [exact Hseed|].
  apply bind_ok_inv in H. destruct H as (c' & w1 & t1 & Hscan & H).
  apply bind_ok_inv in H. destruct H as (ixs' & w2 & t2 & Hch & H).
  simpl in H. injection H as <- <-.
  exists w1, t1. split; [exact Hscan|].
  apply (rng_choice_ok_inv _ _ _ _ w1). rewrite Hch. reflexivity.
Qed.

(** *** The mode flag and the events of the scan *)

Lemma call_model_run x w :
  call_model x w
  = (Ok (snd (forward (training (model w)) (state_dict (model w)) x)),
     set_model (mkModel (fst (forward (training (model w)) (state_dict (model w)) x))
                        (training (model w))) w,
     [EvForward x]).
Proof.
  unfold call_model, bind, get, modify, emit, ret. simpl.
  destruct (forward _ _ x) as [p out]. reflexivity.
Qed.

Lemma tensor_index_cases {A} (l : list A) i w :
  (exists a, tensor_index l i w = (Ok a, w, []))
  \/ tensor_index l i w = (Raise IndexError, w, []).
Proof.
  unfold tensor_index. destruct (nth_error l i) as [a|];
    [left; exists a|right]; reflexivity.
Qed.

Lemma py_index_cases {A} (l : list A) i w :
  (exists a, py_index l i w = (Ok a, w, []))
  \/ py_index l i w = (Raise IndexError, w, []).
Proof.
  unfold py_index. destruct (_ <? 0)%Z; [right; reflexivity|].
  destruct (nth_error l _) as [a|]; [left; exists a|right]; reflexivity.
Qed.

Lemma quiet_tensor_index {A} (l : list A) i (P : event -> Prop) (I : world -> Prop) :
  emits P (tensor_index l i) /\ preserves I (tensor_index l i).
Proof.
  split; intros w; destruct (tensor_index_cases l i w) as [[a H]|H];
    rewrite H; simpl; auto.
Qed.

Lemma quiet_py_index {A} (l : list A) i (P : event -> Prop) (I : world -> Prop) :
  emits P (py_index l i) /\ preserves I (py_index l i).
Proof.
  split; intros w; destruct (py_index_cases l i w) as [[a H]|H];
    rewrite H; simpl; auto.
Qed.

Lemma collect_wrong_emits (P : event -> Prop) dl :
  (forall x, P (EvForward x)) -> emits P (collect_wrong dl).
Proof.
  intros HP. unfold collect_wrong. apply emits_foldM. intros b c.
  unfold scan_batch. apply emits_bind.
  - intros w. rewrite call_model_run. simpl. constructor; [apply HP|constructor].
  - intros out. apply emits_foldM. intros ix c'. unfold append_wrong.
    repeat (apply emits_bind; [apply quiet_tensor_index; exact (fun _ => True)|intro]).
    apply emits_ret.
Qed.

Lemma collect_wrong_eval_mode dl : preserves eval_mode (collect_wrong dl).
Proof.
  unfold collect_wrong. apply preserves_foldM. intros b c.
  unfold scan_batch. apply preserves_bind.
  - intros w Hw. rewrite call_model_run. exact Hw.
  - intros out. apply preserves_foldM. intros ix c'. unfold append_wrong.
    repeat (apply preserves_bind;
            [apply (quiet_tensor_index _ _ (fun _ => True))|intro]).
    apply preserves_ret.
Qed.

(** C3.  When the scan collects fewer than 25 misclassified examples and
    [replace] is false, [explore_wrong_5x5_rgb] raises the [ValueError]
    of the sampling call: its events are the switch to evaluation mode
    and the forward passes of the scan, nothing is drawn, and the model
    stays in evaluation mode.  (The scan takes place for a seed
    [default_rng] accepts.) *)
Theorem explore_wrong_too_few_raises dl class_labels seed w c w1 t1 :
  seed_ok seed ->
  collect_wrong dl (eval_world w) = (Ok c, w1, t1) ->
  (List.length (gtruths c) < 25)%nat ->
  explore_wrong_5x5_rgb dl class_labels seed false w
  = (Raise ValueError, w1, EvModelTrain false :: t1)
  /\ Forall is_forward t1
  /\ training (model w1) = false.
Proof.
  intros Hseed Hscan Hfew. split; [|split].
  - unfold explore_wrong_5x5_rgb.
    apply bind_raise. rewrite (sample_wrong_unfold dl seed false w Hseed).
    rewrite (bind_ok _ _ _ Hscan).
    rewrite (bind_raise _ _ _ (rng_choice_too_few _ _ w1 Hfew)).
    unfold prepend. simpl. rewrite app_nil_r. reflexivity.
  - pose proof (collect_wrong_emits is_forward dl
                  (fun x => ex_intro _ x eq_refl) (eval_world w)) as H.
    rewrite Hscan in H. exact H.
  - pose proof (collect_wrong_eval_mode dl (eval_world w) eq_refl) as H.
    rewrite Hscan in H. exact H.
Qed.

(** C2, amended.  When [explore_wrong_5x5_rgb] returns, the model is in
    training mode, whatever mode it was in before: the last statement is
    [model.train()]. *)
Theorem explore_wrong_leaves_training_mode dl class_labels seed replace w :
  outcome (explore_wrong_5x5_rgb dl class_labels seed replace w) = Ok tt ->
  training (model (store (explore_wrong_5x5_rgb dl class_labels seed replace w)))
  = true.
Proof.
  intros Hret.
  assert (Hok : is_ok (outcome (explore_wrong_5x5_rgb dl class_labels seed replace w))
                = true) by (rewrite Hret; reflexivity).
  clear Hret. revert Hok. unfold explore_wrong_5x5_rgb.
  apply (bind_returns _ _ (fun w' => training (model w') = true)).
  intros [c ixs] wa.
  apply (bind_returns _ _ (fun w' => training (model w') = true)).
  intros _ wb.
  apply (bind_returns _ _ (fun w' => training (model w') = true)).
  intros _ wc _. reflexivity.
Qed.

(** C10.  With [class_labels = []] the run is the run with
    [class_labels = None]: same outcome (so no exception of its own),
    same store, same events; and every title set is made of the raw
    integer ids of the true and the guessed class. *)
Theorem explore_wrong_empty_labels_as_none dl seed replace w :
  explore_wrong_5x5_rgb dl (Some []) seed replace w
  = explore_wrong_5x5_rgb dl None seed replace w
  /\ Forall raw_title (events (explore_wrong_5x5_rgb dl (Some []) seed replace w)).
Proof.
  split; [reflexivity|].
  revert w. change (emits raw_title (explore_wrong_5x5_rgb dl (Some []) seed replace)).
  unfold explore_wrong_5x5_rgb. apply emits_bind.
  - unfold sample_wrong. apply emits_bind.
    { intros w. simpl. repeat constructor. }
    intros _. apply emits_bind.
    { unfold default_rng.
      destruct seed as [s|];
        [destruct (s <? 0)%Z; [apply emits_raise|apply emits_ret]|].
      apply emits_bind; [apply emits_get|intro; apply emits_ret]. }
    intros rng. apply emits_bind.
    { apply collect_wrong_emits. intros x. exact I. }
    intros c. apply emits_bind; [|intro; apply emits_ret].
    unfold rng_choice.
    destruct (_ && _); [apply emits_raise|].
    destruct (_ && _); [apply emits_raise|apply emits_ret].
  - intros [c ixs]. apply emits_bind; [apply emits_emit; exact I|].
    intros _. apply emits_bind; [|intro; intros w; simpl; repeat constructor].
    apply emits_foldM. intros [i ix] []. unfold render_cell.
    apply emits_bind; [apply quiet_tensor_index; exact (fun _ => True)|intro X].
    apply emits_bind; [apply quiet_tensor_index; exact (fun _ => True)|intro y].
    apply emits_bind; [apply quiet_tensor_index; exact (fun _ => True)|intro g].
    simpl truthy. cbv iota.
    apply emits_ret_bind.
    apply emits_bind.
    { destruct (i <? 25)%nat; [apply emits_ret|apply emits_raise]. }
    intros _. apply emits_bind; [|intro; apply emits_emit; exact I].
    apply emits_emit. simpl. exists y, g. reflexivity.
Qed.

End ExploreWrong.

(** ** The visualizer *)

Section Visualizer.

Context {F : Framework}.

(** A rendering step that raised has shown nothing. *)
Ltac counts_raise :=
  split; [unfold shown; cbn -[Z.mul Z.div Z.add Z.max]; lia|simpl; discriminate].

(** A loop that ended by [return] is in the state its returning step
    left. *)
Lemma for_until_returned {A B} (f : B -> A -> Py (A * bool)) (Q : world -> Prop)
  l a w a' w' t :
  (forall b a w a' w' t, f b a w = (Ok (a', true), w', t) -> Q w') ->
  for_until f l a w = (Ok (a', true), w', t) -> Q w'.
Proof.
  intros Hf. revert a w t. induction l as [|b l IH]; intros a w t; simpl.
  - discriminate.
  - unfold bind. destruct (f b a w) as [[[[a1 [|]]|e] w1] t1] eqn:Hb; simpl.
    + intros H. injection H as <- <- _. eapply Hf. exact Hb.
    + destruct (for_until f l a1 w1) as [[r w2] t2] eqn:Hl.
      intros H. injection H as -> -> _. eapply IH. exact Hl.
    + discriminate.
Qed.

Lemma show_example_returned class_names n was x preds j k w k' w' t :
  show_example class_names n was x preds j k w = (Ok (k', true), w', t) ->
  training (model w') = was.
Proof.
  unfold show_example, plt_subplot, view_grid.
  destruct (_ || _); [discriminate|].
  destruct (_ || _); [discriminate|].
  unfold bind at 1. unfold emit at 1. unfold bind at 1. unfold emit at 1.
  unfold bind at 1.
  destruct (tensor_index_cases preds j w) as [[p Hp]|Hp]; rewrite Hp; [|discriminate].
  unfold bind at 1.
  destruct (py_index_cases class_names p w) as [[nm Hn]|Hn]; rewrite Hn; [|discriminate].
  unfold bind at 1. unfold emit at 1. unfold bind at 1.
  destruct (tensor_index_cases x j w) as [[xj Hx]|Hx]; rewrite Hx; [|discriminate].
  unfold bind, emit, ret, model_train, modify. simpl.
  destruct (_ =? n)%Z; simpl; [|discriminate].
  intros H. injection H as _ <- _. reflexivity.
Qed.

Lemma visualize_model_unfold dl class_names n w :
  visualize_model dl class_names n w
  = prepend (EvModelTrain false)
      (prepend EvFigure
         (bind (for_until (visualize_batch class_names n (training (model w))) dl 0%Z)
               (fun r => if snd r then ret tt else model_train (training (model w)))
               (eval_world w))).
Proof.
  unfold visualize_model, model_eval, model_train, prepend.
  unfold bind, get, modify, emit, ret; simpl. fold (eval_world w).
  destruct (for_until _ dl 0%Z (eval_world w)) as [[[[k [|]]|e] w1] t1];
    reflexivity.
Qed.

(** X8.  Whenever [visualize_model] returns, after reaching the limit or after
    exhausting the split, the model is in the mode it had at entry. *)
Lemma visualize_model_restores_mode dl class_names n w :
  outcome (visualize_model dl class_names n w) = Ok tt ->
  training (model (store (visualize_model dl class_names n w)))
  = training (model w).
Proof.
  rewrite visualize_model_unfold. unfold prepend.
  cbn [outcome store events fst snd]. unfold bind.
  destruct (for_until _ dl 0%Z (eval_world w)) as [[[[k [|]]|e] w1] t1] eqn:Hloop;
    cbn [snd fst outcome store events ret model_train bind modify emit];
    [| |discriminate].
  - intros _.
    eapply (for_until_returned _ (fun w' => training (model w') = training (model w)));
      [|exact Hloop].
    intros b a w0 a' w' t. unfold visualize_batch. unfold bind.
    rewrite call_model_run.
    destruct (for_until _ _ a _) as [[r w2] t2] eqn:Hin.
    intros H. injection H as -> -> _.
    eapply (for_until_returned _ (fun w' => training (model w') = training (model w)));
      [|exact Hin].
    intros j k0 w3 k' w4 t4. apply show_example_returned.
  - intros _. reflexivity.
Qed.

Lemma shown_app t1 t2 : shown (t1 ++ t2) = (shown t1 + shown t2)%Z.
Proof. unfold shown. rewrite filter_app, length_app. lia. Qed.

Lemma show_example_counts class_names n was x preds j k w :
  counts n k (show_example class_names n was x preds j k w).
Proof.
  unfold show_example, plt_subplot, view_grid.
  destruct ((n / 2 <=? 0)%Z || (2 <=? 0)%Z) eqn:Hgrid.
  { counts_raise. }
  destruct ((k + 1 <? 1)%Z || (n / 2 * 2 <? k + 1)%Z) eqn:Hcell.
  { counts_raise. }
  apply orb_false_iff in Hcell. destruct Hcell as [_ Hcell].
  apply Z.ltb_ge in Hcell.
  unfold bind at 1. unfold emit at 1. unfold bind at 1. unfold emit at 1.
  unfold bind at 1.
  destruct (tensor_index_cases preds j w) as [[p Hp]|Hp]; rewrite Hp;
    [|counts_raise].
  unfold bind at 1.
  destruct (py_index_cases class_names p w) as [[nm Hn]|Hn]; rewrite Hn;
    [|counts_raise].
  unfold bind at 1. unfold emit at 1. unfold bind at 1.
  destruct (tensor_index_cases x j w) as [[xj Hx]|Hx]; rewrite Hx;
    [|counts_raise].
  unfold bind, emit, ret, model_train, modify. simpl.
  destruct (_ =? n)%Z; unfold counts, shown;
    cbn -[Z.mul Z.div Z.add Z.max]; (split; [lia|]);
    intros k' b H; injection H as <- _; lia.
Qed.

Lemma for_until_counts {B} (f : B -> Z -> Py (Z * bool)) n l :
  (forall b k w, counts n k (f b k w)) ->
  forall k w, counts n k (for_until f l k w).
Proof.
  intros Hf. unfold counts, shown in *.
  induction l as [|b l IH]; intros k w; cbn [for_until].
  - cbn -[Z.mul Z.div Z.add Z.max]. split; [lia|].
    intros k' b H. injection H as <- _. lia.
  - unfold bind. specialize (Hf b k w).
    destruct (f b k w) as [[[[k1 [|]]|e] w1] t1];
      cbn -[Z.mul Z.div Z.add Z.max] in Hf |- *.
    + rewrite app_nil_r. exact Hf.
    + specialize (IH k1 w1). destruct Hf as [Hb Hk].
      specialize (Hk k1 false eq_refl).
      destruct (for_until f l k1 w1) as [[r w2] t2].
      cbn -[Z.mul Z.div Z.add Z.max] in IH |- *.
      destruct IH as [Hb2 Hk2].
      rewrite filter_app, length_app.
      split; [lia|].
      intros k' b' Hr. rewrite (Hk2 k' b' Hr). lia.
    + exact Hf.
Qed.

Lemma visualize_batch_counts class_names n was b k w :
  counts n k (visualize_batch class_names n was b k w).
Proof.
  unfold visualize_batch. unfold bind. rewrite call_model_run.
  pose proof (for_until_counts
                (show_example class_names n was (inputs b)
                   (argmax1 (snd (forward (training (model w)) (state_dict (model w))
                                          (inputs b)))))
                n (seq 0 (List.length (inputs b)))
                (fun j k w => show_example_counts class_names n was _ _ j k w) k) as H.
  match goal with |- context [for_until ?f ?l k ?w1] =>
    specialize (H w1); destruct (for_until f l k w1) as [[r w2] t2] end.
  exact H.
Qed.

(** X9.  In every run, returning or raising, [visualize_model] shows at most
    [num_images] images. *)
Lemma visualize_model_renders_at_most dl class_names n w :
  (shown (events (visualize_model dl class_names n w)) <= Z.max 0 n)%Z.
Proof.
  rewrite visualize_model_unfold. unfold prepend.
  cbn [outcome store events fst snd]. unfold bind.
  pose proof (for_until_counts (visualize_batch class_names n (training (model w)))
                n dl (visualize_batch_counts class_names n (training (model w)))
                0%Z (eval_world w)) as [Hb _].
  assert (Hgrid : (2 * (n / 2) <= n)%Z).
  { pose proof (Z.mul_div_le n 2). lia. }
  unfold shown in *.
  destruct (for_until _ dl 0%Z (eval_world w)) as [[[[k [|]]|e] w1] t1];
    cbn -[Z.mul Z.div Z.add Z.max] in Hb |- *;
    rewrite ?filter_app, ?length_app; cbn -[Z.mul Z.div Z.add Z.max]; lia.
Qed.

(** X10.  With a limit below 2 the grid has no row: at the first example of a
    non-empty first batch [plt.subplot] raises, and the model stays in
    evaluation mode whatever its mode was. *)
Lemma visualize_model_small_limit_raises b dl class_names n w :
  (n <= 1)%Z -> inputs b <> [] ->
  exists w',
    visualize_model (b :: dl) class_names n w
    = (Raise ValueError, w', [EvModelTrain false; EvFigure; EvForward (inputs b)])
    /\ training (model w') = false.
Proof.
  intros Hn Hb.
  assert (Hrows : (n / 2 <=? 0)%Z = true).
  { apply Z.leb_le. assert (n / 2 < 1)%Z; [|lia].
    apply Z.div_lt_upper_bound; lia. }
  assert (Hshow : forall x preds w1,
             show_example class_names n (training (model w)) x preds 0 0%Z w1
             = (Raise ValueError, w1, [])).
  { intros x preds w1. unfold show_example. apply bind_raise.
    unfold plt_subplot. rewrite Hrows. reflexivity. }
  set (w1 := set_model
               (mkModel (fst (forward false (state_dict (model w)) (inputs b))) false)
               (eval_world w)).
  assert (Hbatch : visualize_batch class_names n (training (model w)) b 0%Z
                     (eval_world w)
                   = (Raise ValueError, w1, [EvForward (inputs b)])).
  { unfold visualize_batch.
    rewrite (bind_ok _ _ _ (call_model_run (inputs b) (eval_world w))).
    destruct (inputs b) as [|x0 xs] eqn:Hin; [contradiction|].
    cbn [List.length seq for_until].
    rewrite (bind_raise _ _ _ (Hshow _ _ _)). reflexivity. }
  exists w1. split; [|reflexivity].
  rewrite visualize_model_unfold. cbn [for_until].
  rewrite (bind_raise _ _ _ (bind_raise _ _ _ Hbatch)). reflexivity.
Qed.

End Visualizer.

(** ** More facts about the monad *)

Section MoreMonadFacts.

Context {W E : Type}.

Lemma emits_foldM_In (P : E -> Prop) {A B} (f : B -> A -> M W E A) l :
  (forall b, In b l -> forall a, emits P (f b a)) ->
  forall a, emits P (foldM f l a).
Proof.
  induction l as [|b l IH]; intros Hf a; simpl.
  - apply emits_ret.
  - apply emits_bind; [apply Hf; left; reflexivity|].
    apply IH. intros b' Hb'. apply Hf. right. exact Hb'.
Qed.

Lemma emits_bind_with (P : E -> Prop) {A B} (R : A -> Prop)
  (m : M W E A) (f : A -> M W E B) :
  emits P m -> returns_only R m -> (forall a, R a -> emits P (f a)) ->
  emits P (bind m f).
Proof.
  intros Hm HR Hf w. unfold bind. specialize (Hm w). specialize (HR w).
  destruct (m w) as [[[a|e] w1] t1]; simpl in *; [|exact Hm].
  specialize (Hf a (HR a eq_refl) w1).
  destruct (f a w1) as [[r w2] t2]; simpl in *.
  apply Forall_app. split; assumption.
Qed.

Lemma emits_raise_bind (P : E -> Prop) {A B} e (f : A -> M W E B) :
  emits P (bind (raise e) f).
Proof. intros w. constructor. Qed.

Lemma returns_only_ret {A} (R : A -> Prop) a : R a -> returns_only R (ret a : M W E A).
Proof. intros Ha w a' H. injection H as <-. exact Ha. Qed.

Lemma returns_only_raise {A} (R : A -> Prop) e : returns_only R (raise e : M W E A).
Proof. intros w a' H. discriminate H. Qed.

Lemma returns_only_bind {A B} (R : B -> Prop) (m : M W E A) (f : A -> M W E B) :
  (forall a, returns_only R (f a)) -> returns_only R (bind m f).
Proof.
  intros Hf w b. unfold bind.
  destruct (m w) as [[[a|e] w1] t1]; simpl; [|discriminate].
  specialize (Hf a w1 b). destruct (f a w1) as [[r w2] t2]. exact Hf.
Qed.

Lemma returns_only_bind_with {A B} (R0 : A -> Prop) (R : B -> Prop)
  (m : M W E A) (f : A -> M W E B) :
  returns_only R0 m -> (forall a, R0 a -> returns_only R (f a)) ->
  returns_only R (bind m f).
Proof.
  intros Hm Hf w b. unfold bind. specialize (Hm w).
  destruct (m w) as [[[a|e] w1] t1]; simpl in *; [|discriminate].
  specialize (Hf a (Hm a eq_refl) w1 b).
  destruct (f a w1) as [[r w2] t2]. exact Hf.
Qed.

Lemma returns_only_foldM_In {A B} (R : A -> Prop) (f : B -> A -> M W E A) l :
  (forall b, In b l -> forall a, R a -> returns_only R (f b a)) ->
  forall a, R a -> returns_only R (foldM f l a).
Proof.
  induction l as [|b l IH]; intros Hf a Ha; simpl.
  - apply returns_only_ret. exact Ha.
  - apply (returns_only_bind_with R).
    + apply Hf; [left; reflexivity|exact Ha].
    + intros a1 Ha1. apply IH; [|exact Ha1].
      intros b' Hb'. apply Hf. right. exact Hb'.
Qed.

Lemma preserves_modify (I : W -> Prop) f :
  (forall w, I w -> I (f w)) -> preserves I (modify f : M W E unit).
Proof. intros Hf w Hw. apply Hf. exact Hw. Qed.

(** The store after [bind m f] satisfies what the store after [m]
    satisfies and [f] preserves. *)
Lemma bind_keeps {A B} (Q : W -> Prop) (m : M W E A) (f : A -> M W E B) w :
  Q (store (m w)) -> (forall a, preserves Q (f a)) -> Q (store (bind m f w)).
Proof.
  intros Hm Hf. unfold bind.
  destruct (m w) as [[[a|e] w1] t1]; simpl in *; [|exact Hm].
  specialize (Hf a w1 Hm). destruct (f a w1) as [[r w2] t2]. exact Hf.
Qed.

End MoreMonadFacts.

(** ** More about the training driver *)

Section TrainModelRuns.

Context {F : Framework}.

(** *** When a run returns *)

(** X1.  For dataset sizes that fit a signed 64-bit integer, loaders
    that yield one label per example and a model that gives one
    prediction per example (the inputs on which the exact division and
    the position-wise comparison of the embedding are those of lines 81
    and 86), [train_model] returns exactly when every phase of every
    epoch below [num_epochs] has a non-zero size and a loader that
    yields a batch. *)
Theorem train_model_returns_exactly_when d N w :
  (forall ph, int64 (dataset_sizes d ph)) ->
  one_label_per_example d (Z.to_nat N) ->
  one_prediction_per_example ->
  (is_ok (outcome (train_model d N w)) = true
   <-> forall e, (e < Z.to_nat N)%nat -> good_epoch d e).
Proof. intros _ _ _. apply train_model_returns_iff. Qed.

Ltac keep :=
  repeat first
    [ apply preserves_ret | apply preserves_raise | apply preserves_get
    | apply preserves_emit
    | apply preserves_modify; let w := fresh "w" in intros w; exact (fun H => H)
    | apply preserves_bind; [|intro] ].

Lemma batch_body_in_mode b ph bt r : preserves (in_mode b) (batch_body ph bt r).
Proof.
  intros w Hw. destruct r as [rl rc]. unfold batch_body.
  unfold optimizer_zero_grad, call_model, loss_backward, do_optimizer_step.
  unfold bind, modify, emit, get, ret; simpl.
  destruct (forward (training (model w)) (state_dict (model w)) (inputs bt))
    as [p out]; simpl.
  destruct ph; simpl; [|exact Hw].
  destruct (optimizer_step p (backward out (labels bt) (zero_grad (optim w))))
    as [p' o']; simpl. exact Hw.
Qed.

Lemma phase_rest_in_mode b d e ph best :
  preserves (in_mode b)
    (running <- foldM (batch_body ph) (batches d ph e) (0%Q, None) ;;
     let (running_loss, running_corrects) := running in
     (if phase_eqb ph Train then do_scheduler_step else ret tt) ;;
     epoch_loss <- (if Z.eqb (dataset_sizes d ph) 0
                    then raise ZeroDivisionError
                    else ret (running_loss / inject_Z (dataset_sizes d ph))%Q) ;;
     epoch_acc <- (match running_corrects with
                   | None => raise AttributeError
                   | Some c => ret (inject_Z c / inject_Z (dataset_sizes d ph))%Q
                   end) ;;
     emit (EvPrintStats ph epoch_loss epoch_acc) ;;
     if phase_eqb ph Val && acc_gtb epoch_acc (fst best)
     then (wts <- deepcopy_state_dict ;; ret (epoch_acc, wts))
     else ret best).
Proof.
  apply preserves_bind.
  - apply preserves_foldM. intros bt r. apply batch_body_in_mode.
  - intros [rl rc]. apply preserves_bind.
    + destruct (phase_eqb ph Train); [unfold do_scheduler_step|]; keep.
    + intros _. apply preserves_bind.
      * destruct (_ =? 0)%Z; keep.
      * intros l. apply preserves_bind; [destruct rc; keep|].
        intros a. apply preserves_bind; [keep|]. intros _.
        destruct (_ && _); [unfold deepcopy_state_dict|]; keep.
Qed.

Lemma phase_body_mode d e ph best w :
  in_mode (phase_eqb ph Train) (store (phase_body d e ph best w)).
Proof.
  pose proof (phase_rest_in_mode (phase_eqb ph Train) d e ph best
                (set_model (mkModel (state_dict (model w)) (phase_eqb ph Train)) w)
                eq_refl) as H.
  destruct best as [b wts]. unfold phase_body.
  rewrite (bind_ok _ _ _ (mode_switch_run ph w)). exact H.
Qed.

Lemma epoch_body_returns_eval d N e best w :
  is_ok (outcome (epoch_body d N e best w)) = true ->
  in_mode false (store (epoch_body d N e best w)).
Proof.
  unfold epoch_body.
  apply (bind_returns _ _ (in_mode false)). intros _ w1.
  change (foldM (phase_body d e) [Train; Val] best)
    with (bind (phase_body d e Train best) (foldM (phase_body d e) [Val])).
  apply (bind_returns _ _ (in_mode false)). intros b1 w2 _.
  rewrite foldM_single. apply (phase_body_mode d e Val).
Qed.

Lemma epochs_loop_returns_eval d N k w :
  is_ok (outcome (epochs_loop d N (S k) w)) = true ->
  in_mode false (store (epochs_loop d N (S k) w)).
Proof.
  rewrite epochs_loop_S.
  apply (bind_returns _ _ (in_mode false)). intros best w1.
  apply epoch_body_returns_eval.
Qed.

(** X3.  With at least one epoch, a call of [train_model] that returns
    leaves the model in evaluation mode (the last phase is validation),
    whatever the mode at entry; the returned model is that object. *)
Theorem train_model_returns_in_eval_mode d N w m :
  (0 < N)%Z ->
  outcome (train_model d N w) = Ok m ->
  training m = false /\ training (model (store (train_model d N w))) = false.
Proof.
  intros HN Hret.
  destruct (epochs_loop d N (Z.to_nat N) w) as [[[best|ex] w1] t1] eqn:Hrun.
  - rewrite (train_model_ok _ _ _ _ _ _ Hrun) in Hret |- *.
    cbn [outcome store fst snd] in Hret |- *. injection Hret as <-.
    cbn [training model set_model].
    assert (Hm : in_mode false w1).
    { destruct (Z.to_nat N) as [|k] eqn:Hk; [lia|].
      pose proof (epochs_loop_returns_eval d N k w) as H.
      rewrite Hrun in H. apply H. reflexivity. }
    split; exact Hm.
  - rewrite (train_model_raise _ _ _ _ _ _ Hrun) in Hret. discriminate.
Qed.

(** *** What a run that returns reports *)

(** X4.  A run of [train_model] that returns ends with the report of the
    best accuracy and [load_state_dict]; the accuracy reported is not
    negative, no recorded validation accuracy exceeds it, and it is 0 or
    one of the recorded validation accuracies. *)
Theorem train_model_reports_best d N w m :
  outcome (train_model d N w) = Ok m ->
  exists t b,
    events (train_model d N w) = t ++ [EvPrintBest b; EvLoadStateDict]
    /\ (0 <= b)%Q
    /\ (forall a, In a (val_accs (events (train_model d N w))) -> (a <= b)%Q)
    /\ (b = 0%Q \/ In b (val_accs (events (train_model d N w)))).
Proof.
  intros Hret.
  destruct (epochs_loop d N (Z.to_nat N) w) as [[[best|ex] w1] t1] eqn:Hrun;
    [|rewrite (train_model_raise _ _ _ _ _ _ Hrun) in Hret; discriminate].
  pose proof (epochs_loop_ok_good _ _ _ _ _ _ _ Hrun) as Hgood.
  destruct (epochs_loop_best d N w (Z.to_nat N) Hgood)
    as (best' & w1' & t1' & Hrun' & _ & Hinv).
  rewrite Hrun in Hrun'. injection Hrun' as <- <- <-.
  rewrite (train_model_ok _ _ _ _ _ _ Hrun). cbn [events snd].
  exists t1, (fst best). split; [reflexivity|].
  rewrite val_accs_app.
  change (val_accs [EvPrintBest (fst best); EvLoadStateDict]) with (@nil Q).
  rewrite app_nil_r.
  destruct Hinv as [[-> Hall]|(i & Hi & Hp & _ & Hmax & _)]; cbn [fst].
  - split; [apply Qle_refl|]. split; [exact Hall|left; reflexivity].
  - split; [apply Qlt_le_weak; exact Hp|]. split.
    + intros a Ha. apply In_nth_error in Ha. destruct Ha as [j Hj].
      eapply Hmax. exact Hj.
    + right. eapply nth_error_In. exact Hi.
Qed.

(** *** Runs that raise *)







(** Over the epochs that can finish, what a filter keeps of the events
    of the loop is what it keeps of each epoch. *)
Lemma epochs_loop_good_filter (p : event -> bool) (g : nat -> list event) d N w k :
  (forall e l1 a1 l a, filter p (epoch_events d N e l1 a1 l a) = g e) ->
  (forall e, (e < k)%nat -> good_epoch d e) ->
  exists best w' t,
    epochs_loop d N k w = (Ok best, w', t)
    /\ filter p t = flat_map g (seq 0 k).
Proof.
  intros Hp. induction k as [|k IH]; intros Hgood.
  - rewrite epochs_loop_unfold. simpl. do 3 eexists. split; reflexivity.
  - destruct IH as (best & w1 & t1 & Hrun & Ht).
    { intros e He. apply Hgood. lia. }
    destruct (epoch_body_ok d N k best w1 (Hgood k (Nat.lt_succ_diag_r k)))
      as (w2 & l1 & a1 & l & a & H2).
    do 3 eexists. split.
    + rewrite epochs_loop_S, (bind_ok _ _ _ Hrun), H2.
      cbn [outcome store events fst snd]. reflexivity.
    + rewrite filter_app, Ht, Hp, seq_S, flat_map_app.
      cbn [flat_map Nat.add]. rewrite app_nil_r. reflexivity.
Qed.



(** *** Gradient steps *)

Lemma batch_calls_batches ph bs :
  filter is_batch_call (flat_map (batch_events ph) bs)
  = flat_map (batch_events ph) bs.
Proof.
  induction bs as [|b bs IH]; [reflexivity|].
  cbn [flat_map]. rewrite filter_app, IH. destruct ph; reflexivity.
Qed.

Lemma batch_calls_phase_pre d e ph :
  filter is_batch_call (phase_pre d e ph) = flat_map (batch_events ph) (batches d ph e).
Proof.
  unfold phase_pre. cbn [filter is_batch_call].
  rewrite filter_app, batch_calls_batches. destruct ph; apply app_nil_r.
Qed.

Lemma batch_calls_epoch_events d N e l1 a1 l a :
  filter is_batch_call (epoch_events d N e l1 a1 l a) = epoch_batch_calls d e.
Proof.
  unfold epoch_events, epoch_batch_calls. cbn [filter is_batch_call].
  rewrite !filter_app, !batch_calls_phase_pre. cbn [filter is_batch_call].
  rewrite !app_nil_r. reflexivity.
Qed.

Lemma optimizer_steps_batches ph bs :
  filter is_optimizer_step (flat_map (batch_events ph) bs)
  = if phase_eqb ph Train then repeat EvOptimizerStep (List.length bs) else [].
Proof.
  induction bs as [|b bs IH]; [destruct ph; reflexivity|].
  cbn [flat_map]. rewrite filter_app, IH. destruct ph; reflexivity.
Qed.

Lemma optimizer_steps_phase_pre d e ph :
  filter is_optimizer_step (phase_pre d e ph)
  = if phase_eqb ph Train
    then repeat EvOptimizerStep (List.length (batches d ph e)) else [].
Proof.
  unfold phase_pre. cbn [filter is_optimizer_step].
  rewrite filter_app, optimizer_steps_batches. destruct ph; apply app_nil_r.
Qed.

Lemma optimizer_steps_epoch_events d N e l1 a1 l a :
  filter is_optimizer_step (epoch_events d N e l1 a1 l a)
  = repeat EvOptimizerStep (List.length (batches d Train e)).
Proof.
  unfold epoch_events. cbn [filter is_optimizer_step].
  rewrite !filter_app, !optimizer_steps_phase_pre.
  cbn [filter is_optimizer_step phase_eqb]. rewrite !app_nil_r. reflexivity.
Qed.

(** X5.  In a run of [train_model] that returns, the batch calls are, epoch
    by epoch, those of the training batches (zero_grad, forward,
    backward, optimizer step) followed by those of the validation
    batches (zero_grad, forward): no backward pass and no optimizer step
    belongs to a validation batch, and the number of optimizer steps is
    the number of training batches. *)
Theorem train_model_steps_on_training_batches_only d N w m :
  outcome (train_model d N w) = Ok m ->
  filter is_batch_call (events (train_model d N w))
  = flat_map (epoch_batch_calls d) (seq 0 (Z.to_nat N))
  /\ List.length (filter is_optimizer_step (events (train_model d N w)))
     = list_sum (map (fun e => List.length (batches d Train e)) (seq 0 (Z.to_nat N))).
Proof.
  intros Hret.
  destruct (epochs_loop d N (Z.to_nat N) w) as [[[best|ex] w1] t1] eqn:Hrun;
    [|rewrite (train_model_raise _ _ _ _ _ _ Hrun) in Hret; discriminate].
  pose proof (epochs_loop_ok_good _ _ _ _ _ _ _ Hrun) as Hgood.
  rewrite (train_model_ok _ _ _ _ _ _ Hrun). cbn [events snd].
  split.
  - destruct (epochs_loop_good_filter is_batch_call (epoch_batch_calls d) d N w
                (Z.to_nat N) (batch_calls_epoch_events d N) Hgood)
      as (best' & w1' & t1' & Hrun' & Ht).
    rewrite Hrun in Hrun'. injection Hrun' as <- <- <-.
    rewrite filter_app, Ht. apply app_nil_r.
  - destruct (epochs_loop_good_filter is_optimizer_step
                (fun e => repeat EvOptimizerStep (List.length (batches d Train e)))
                d N w (Z.to_nat N) (optimizer_steps_epoch_events d N) Hgood)
      as (best' & w1' & t1' & Hrun' & Ht).
    rewrite Hrun in Hrun'. injection Hrun' as <- <- <-.
    rewrite filter_app, Ht, app_nil_r, length_flat_map.
    f_equal. apply map_ext. intros e. apply repeat_length.
Qed.

(** *** A non-positive epoch count *)

(** X6.  With a negative epoch count, as with 0, [range(num_epochs)] is
    empty: the run is the final report and [load_state_dict] of the
    initial copy, and the store is the one at entry. *)
Theorem train_model_nonpositive_epochs d N w :
  (N <= 0)%Z ->
  train_model d N w = (Ok (model w), w, [EvPrintBest 0; EvLoadStateDict]).
Proof.
  intros HN. unfold train_model.
  replace (Z.to_nat N) with 0%nat by lia.
  destruct w as [[p t] o s]. reflexivity.
Qed.

(** *** The range of the recorded accuracies *)

Lemma count_correct_bounds preds y :
  (0 <= count_correct preds y <= Z.of_nat (List.length y))%Z.
Proof.
  unfold count_correct. split; [lia|].
  apply inj_le.
  eapply Nat.le_trans; [apply filter_length_le|].
  rewrite length_combine. apply Nat.le_min_r.
Qed.

Lemma batch_body_corrects ph bt r :
  returns_only
    (fun r' => (corrects_of (snd r) <= corrects_of (snd r')
                <= corrects_of (snd r) + Z.of_nat (List.length (labels bt)))%Z)
    (batch_body ph bt r).
Proof.
  intros w r'. destruct r as [rl rc]. unfold batch_body.
  unfold optimizer_zero_grad, call_model, loss_backward, do_optimizer_step.
  unfold bind, modify, emit, get, ret; simpl.
  destruct (forward (training (model w)) (state_dict (model w)) (inputs bt))
    as [p out]; simpl.
  pose proof (count_correct_bounds (argmax1 out) (labels bt)) as Hc.
  destruct ph; simpl;
    [destruct (optimizer_step p (backward out (labels bt) (zero_grad (optim w))))
       as [p' o']; simpl|];
    intros H; injection H as <-; destruct rc;
    cbn [corrects_of snd add_corrects]; lia.
Qed.

Lemma batches_corrects ph bs r :
  returns_only
    (fun r' =>
       (corrects_of (snd r) <= corrects_of (snd r')
        <= corrects_of (snd r)
           + Z.of_nat (list_sum (map (fun b => List.length (labels b)) bs)))%Z)
    (foldM (batch_body ph) bs r).
Proof.
  revert r. induction bs as [|b bs IH]; intros r; cbn [foldM].
  - apply returns_only_ret. simpl. lia.
  - eapply returns_only_bind_with; [apply batch_body_corrects|].
    intros r1 H1 w r2 H2. apply (IH r1) in H2.
    unfold list_sum in *. cbn [map fold_right]. lia.
Qed.

Lemma batches_emit_quiet (P : event -> Prop) ph bs r :
  P EvZeroGrad -> (forall x, P (EvForward x)) -> P EvBackward -> P EvOptimizerStep ->
  emits P (foldM (batch_body ph) bs r).
Proof.
  intros H1 H2 H3 H4 w.
  destruct (batches_run ph bs r w) as (r' & w' & Hrun & _). rewrite Hrun.
  cbn [events snd]. apply Forall_flat_map. apply Forall_forall. intros b _.
  unfold batch_events. destruct ph; simpl; repeat constructor; auto.
Qed.

Lemma unit_accuracy c s :
  (0 <= c <= s)%Z -> (0 < s)%Z ->
  (0 <= inject_Z c / inject_Z s)%Q /\ (inject_Z c / inject_Z s <= 1)%Q.
Proof.
  intros Hc Hs.
  assert (Hpos : (0 < inject_Z s)%Q).
  { change 0%Q with (inject_Z 0). rewrite <- Zlt_Qlt. lia. }
  split.
  - apply Qle_shift_div_l; [exact Hpos|]. rewrite Qmult_0_l.
    change 0%Q with (inject_Z 0). rewrite <- Zle_Qle. lia.
  - apply Qle_shift_div_r; [exact Hpos|]. rewrite Qmult_1_l.
    rewrite <- Zle_Qle. lia.
Qed.

Lemma phase_body_acc_in_unit d e ph best :
  (0 < dataset_sizes d ph)%Z ->
  (labels_yielded d ph e <= dataset_sizes d ph)%Z ->
  emits acc_in_unit (phase_body d e ph best).
Proof.
  intros Hs Hl. destruct best as [b wts]. unfold phase_body.
  apply emits_bind.
  { intros w. destruct ph; simpl; repeat constructor. }
  intros _.
  apply (emits_bind_with acc_in_unit
           (fun r => (0 <= corrects_of (snd r) <= labels_yielded d ph e)%Z)).
  { apply batches_emit_quiet; simpl; auto. }
  { intros w r Hr. apply batches_corrects in Hr.
    cbn [snd corrects_of] in Hr. unfold labels_yielded. lia. }
  intros [rl rc] Hr. cbn [snd] in Hr.
  apply emits_bind.
  { destruct (phase_eqb ph Train); [|apply emits_ret].
    unfold do_scheduler_step. apply emits_bind; [apply emits_modify|].
    intros _. apply emits_emit. exact I. }
  intros _. apply emits_bind.
  { destruct (_ =? 0)%Z; [apply emits_raise|apply emits_ret]. }
  intros l. destruct rc as [c|].
  - apply emits_ret_bind. apply emits_bind.
    + apply emits_emit. cbn [corrects_of] in Hr.
      apply unit_accuracy; [lia|exact Hs].
    + intros _. destruct (_ && _); [|apply emits_ret].
      unfold deepcopy_state_dict.
      apply emits_bind; [apply emits_bind; [apply emits_get|intro; apply emits_ret]|].
      intro. apply emits_ret.
  - apply emits_raise_bind.
Qed.

(** X7.  When the loaders yield one label per example, the model gives
    one prediction per example, and each size in [dataset_sizes] is
    positive and not less than the number of labels its loader yields
    in an epoch, every accuracy [train_model] prints is between 0 and 1,
    in every run. *)
Theorem train_model_accuracies_in_unit_interval d N w :
  one_label_per_example d (Z.to_nat N) ->
  one_prediction_per_example ->
  (forall e ph, (e < Z.to_nat N)%nat ->
                (0 < dataset_sizes d ph)%Z
                /\ (labels_yielded d ph e <= dataset_sizes d ph)%Z) ->
  Forall acc_in_unit (events (train_model d N w)).
Proof.
  intros _ _ Hsizes. revert w.
  change (emits acc_in_unit (train_model d N)).
  unfold train_model. apply emits_bind.
  - unfold epochs_loop. apply emits_bind.
    { unfold deepcopy_state_dict.
      apply emits_bind; [apply emits_get|intro; apply emits_ret]. }
    intros wts0. apply emits_foldM_In. intros e He best.
    apply in_seq in He.
    unfold epoch_body. apply emits_bind; [apply emits_emit; exact I|].
    intros _. apply emits_foldM. intros ph best'.
    destruct (Hsizes e ph) as [Hs Hl]; [lia|].
    apply phase_body_acc_in_unit; assumption.
  - intros best. apply emits_bind; [apply emits_emit; exact I|].
    intros _. apply emits_bind.
    + unfold load_state_dict.
      apply emits_bind; [apply emits_modify|intro; apply emits_emit; exact I].
    + intros _. apply emits_bind; [apply emits_get|intro; apply emits_ret].
Qed.

End TrainModelRuns.

(** ** The pictures the visualizer shows *)

Section VisualizerOrder.

Context {F : Framework}.

Lemma pictures_app t1 t2 : pictures (t1 ++ t2) = pictures t1 ++ pictures t2.
Proof. apply flat_map_app. Qed.

Lemma pictures_quiet ev t : is_imshow ev = false -> pictures (ev :: t) = pictures t.
Proof. destruct ev; try discriminate; reflexivity. Qed.

Lemma shown_pictures t : shown t = Z.of_nat (List.length (pictures t)).
Proof.
  unfold shown, pictures. f_equal.
  induction t as [|ev t IH]; [reflexivity|].
  cbn [filter flat_map]. rewrite length_app.
  destruct ev; cbn [is_imshow List.length]; rewrite IH; reflexivity.
Qed.

Lemma renders_raise n k xs e w t :
  pictures t = [] -> renders n k xs (Raise e, w, t).
Proof.
  intros Ht. exists 0%nat. split; [lia|]. split; [exact Ht|].
  intros k' b H. discriminate H.
Qed.

Lemma show_example_renders class_names n was x preds j k w :
  renders n k (example_at x j) (show_example class_names n was x preds j k w).
Proof.
  unfold show_example, plt_subplot, view_grid.
  destruct ((n / 2 <=? 0)%Z || (2 <=? 0)%Z).
  { apply renders_raise. reflexivity. }
  destruct ((k + 1 <? 1)%Z || (n / 2 * 2 <? k + 1)%Z).
  { apply renders_raise. reflexivity. }
  unfold bind at 1. unfold emit at 1. unfold bind at 1. unfold emit at 1.
  unfold bind at 1.
  destruct (tensor_index_cases preds j w) as [[p Hp]|Hp]; rewrite Hp;
    [|apply renders_raise; reflexivity].
  unfold bind at 1.
  destruct (py_index_cases class_names p w) as [[nm Hn]|Hn]; rewrite Hn;
    [|apply renders_raise; reflexivity].
  unfold bind at 1. unfold emit at 1. unfold bind at 1.
  unfold tensor_index at 1, example_at.
  destruct (nth_error x j) as [xj|]; [|apply renders_raise; reflexivity].
  unfold bind, emit, ret, model_train, modify.
  cbn [app fst snd outcome store events].
  exists 1%nat. split; [simpl; lia|].
  destruct (Z.eqb_spec (k + 1) n) as [Heq|Hne];
    cbn [app fst snd outcome store events]; (split; [reflexivity|]);
    intros k' b H; injection H as <- <-;
    (split; [lia|]); (split; [intros Hb|intros Hb]);
    try discriminate Hb; try exact Heq.
  split; [reflexivity|lia].
Qed.

Lemma for_until_renders {B} (f : B -> Z -> Py (Z * bool)) (xs_of : B -> list Tensor)
  n l :
  (forall b k w, renders n k (xs_of b) (f b k w)) ->
  forall k w, renders n k (flat_map xs_of l) (for_until f l k w).
Proof.
  intros Hf. induction l as [|b l IH]; intros k w; cbn [for_until flat_map].
  - exists 0%nat. split; [simpl; lia|]. split; [reflexivity|].
    intros k' b H. injection H as <- <-.
    split; [lia|]. split; [discriminate|]. intros _. split; [reflexivity|lia].
  - unfold bind. destruct (Hf b k w) as (m1 & Hm1 & Hp1 & Hk1).
    destruct (f b k w) as [[[[k1 [|]]|e] w1] t1];
      cbn [outcome store events fst snd ret] in Hp1, Hk1 |- *.
    + exists m1. split; [rewrite length_app; lia|].
      split.
      * cbn [outcome events fst snd]. rewrite app_nil_r, Hp1, firstn_app.
        replace (m1 - List.length (xs_of b))%nat with 0%nat by lia.
        rewrite firstn_0, app_nil_r. reflexivity.
      * cbn [outcome events fst snd]. intros k' b' H. injection H as <- <-.
        destruct (Hk1 k1 true eq_refl) as (Hk & Ht & _).
        split; [exact Hk|]. split; [exact Ht|discriminate].
    + destruct (Hk1 k1 false eq_refl) as (Hk & _ & Hcont).
      destruct (Hcont eq_refl) as [Hall Hlim].
      destruct (IH k1 w1) as (m2 & Hm2 & Hp2 & Hk2).
      destruct (for_until f l k1 w1) as [[r w2] t2].
      cbn [outcome store events fst snd] in Hp2, Hk2 |- *.
      exists (m1 + m2)%nat. split; [rewrite length_app; lia|].
      split.
      * cbn [outcome events fst snd].
        rewrite pictures_app, Hp1, Hp2, Hall, firstn_app_2, map_app.
        rewrite firstn_all. reflexivity.
      * cbn [outcome events fst snd].
        intros k' b' H. destruct (Hk2 k' b' H) as (Hk' & Ht' & Hc').
        split; [lia|]. split; [exact Ht'|].
        intros Hb. destruct (Hc' Hb) as [Hall' Hlim'].
        split; [rewrite length_app; lia|lia].
    + exists m1. split; [rewrite length_app; lia|].
      cbn [outcome events fst snd].
      split; [|intros k' b' H; discriminate H].
      rewrite Hp1, firstn_app.
      replace (m1 - List.length (xs_of b))%nat with 0%nat by lia.
      rewrite firstn_0, app_nil_r. reflexivity.
Qed.

Lemma examples_at_all (pre x : list Tensor) :
  flat_map (example_at (pre ++ x)) (seq (List.length pre) (List.length x)) = x.
Proof.
  revert pre. induction x as [|x0 x IH]; intros pre; [reflexivity|].
  cbn [List.length seq flat_map]. unfold example_at at 1.
  rewrite nth_error_app2, Nat.sub_diag by lia. cbn [nth_error app].
  f_equal.
  specialize (IH (pre ++ [x0])).
  rewrite <- app_assoc, length_app in IH. cbn [app List.length] in IH.
  rewrite Nat.add_1_r in IH. exact IH.
Qed.

Lemma visualize_batch_renders class_names n was b k w :
  renders n k (inputs b) (visualize_batch class_names n was b k w).
Proof.
  unfold visualize_batch. unfold bind. rewrite call_model_run.
  pose proof (for_until_renders
                (show_example class_names n was (inputs b)
                   (argmax1 (snd (forward (training (model w)) (state_dict (model w))
                                          (inputs b)))))
                (example_at (inputs b)) n (seq 0 (List.length (inputs b)))
                (fun j k w => show_example_renders class_names n was _ _ j k w) k) as H.
  pose proof (examples_at_all [] (inputs b)) as Hall.
  cbn [app List.length] in Hall. rewrite Hall in H. clear Hall.
  match goal with |- context [for_until ?f ?l k ?w1] =>
    specialize (H w1); destruct (for_until f l k w1) as [[r w2] t2] end.
  exact H.
Qed.

(** X11.  The pictures [visualize_model] shows are, in order, a prefix of
    the examples of the validation split, batch after batch and index
    after index; when the call returns they are the first
    [min(num_images, number of examples)] of them. *)
Theorem visualize_model_shows_first_examples dl class_names n w :
  (exists m,
      pictures (events (visualize_model dl class_names n w))
      = map to_display (firstn m (examples dl)))
  /\ (outcome (visualize_model dl class_names n w) = Ok tt ->
      pictures (events (visualize_model dl class_names n w))
      = map to_display
          (firstn (Z.to_nat (Z.min n (Z.of_nat (List.length (examples dl)))))
                  (examples dl))).
Proof.
  rewrite visualize_model_unfold. unfold prepend.
  cbn [outcome store events fst snd]. unfold bind.
  pose proof (for_until_renders (visualize_batch class_names n (training (model w)))
                inputs n dl (visualize_batch_renders class_names n (training (model w)))
                0%Z (eval_world w)) as (m & Hm & Hp & Hk).
  pose proof (for_until_counts (visualize_batch class_names n (training (model w)))
                n dl (visualize_batch_counts class_names n (training (model w)))
                0%Z (eval_world w)) as [Hb _].
  rewrite shown_pictures, Hp, length_map, length_firstn in Hb.
  fold (examples dl) in Hm, Hp, Hb |- *.
  assert (Hgrid : (2 * (n / 2) <= n)%Z).
  { pose proof (Z.mul_div_le n 2). lia. }
  destruct (for_until _ dl 0%Z (eval_world w)) as [[[[k [|]]|e] w1] t1];
    cbn [outcome store events fst snd ret model_train bind modify emit app]
      in Hp, Hk |- *;
    do 2 (rewrite pictures_quiet by reflexivity);
    rewrite ?pictures_app, ?app_nil_r;
    cbn [pictures flat_map app]; rewrite ?app_nil_r; fold (pictures t1).
  - split; [exists m; exact Hp|]. intros _.
    destruct (Hk k true eq_refl) as (Hk' & Hlim & _). specialize (Hlim eq_refl).
    rewrite Hp. do 2 f_equal. unfold examples in *. lia.
  - split; [exists m; exact Hp|]. intros _.
    destruct (Hk k false eq_refl) as (Hk' & _ & Hcont).
    destruct (Hcont eq_refl) as [Hall Hlim].
    rewrite Hp. do 2 f_equal. unfold examples in *. lia.
  - split; [exists m; exact Hp|]. discriminate.
Qed.

End VisualizerOrder.

(** ** What the scan collects *)

Section Scan.

Context {F : Framework}.

Lemma in_combine_seq {A} (l : list A) s n i a :
  In (i, a) (combine (seq s n) l) -> (s <= i)%nat /\ nth_error l (i - s) = Some a.
Proof.
  revert s n. induction l as [|b l IH]; intros s n H.
  - destruct n; simpl in H; contradiction.
  - destruct n as [|n]; simpl in H; [contradiction|].
    destruct H as [H|H].
    + injection H as <- <-. split; [lia|]. rewrite Nat.sub_diag. reflexivity.
    + apply IH in H. destruct H as [Hle Hn]. split; [lia|].
      replace (i - s)%nat with (S (i - S s)) by lia. exact Hn.
Qed.

Lemma nth_error_combine_inv {A B} (l : list A) (l' : list B) i a b :
  nth_error (combine l l') i = Some (a, b) ->
  nth_error l i = Some a /\ nth_error l' i = Some b.
Proof.
  revert l' i. induction l as [|x l IH]; intros l' i H.
  - destruct i; discriminate.
  - destruct l' as [|y l']; [destruct i; discriminate|].
    destruct i as [|i]; simpl in *.
    + injection H as <- <-. split; reflexivity.
    + apply IH. exact H.
Qed.

(** [wrong_ixs] lists positions where the prediction is not the label. *)
Lemma wrong_ixs_spec pred y ix p t :
  In ix (wrong_ixs pred y) ->
  nth_error pred ix = Some p -> nth_error y ix = Some t -> p <> t.
Proof.
  unfold wrong_ixs. intros Hin Hp Ht.
  apply in_map_iff in Hin. destruct Hin as ([i [p' t']] & Hi & Hin).
  simpl in Hi. subst i.
  apply filter_In in Hin. destruct Hin as [Hin Hne]. simpl in Hne.
  apply in_combine_seq in Hin. destruct Hin as [_ Hin].
  rewrite Nat.sub_0_r in Hin.
  apply nth_error_combine_inv in Hin. destruct Hin as [Hp' Ht'].
  rewrite Hp in Hp'. rewrite Ht in Ht'.
  injection Hp' as <-. injection Ht' as <-.
  apply negb_true_iff in Hne. apply Z.eqb_neq. exact Hne.
Qed.

Lemma wrong_ixs_length pred y : (List.length (wrong_ixs pred y) <= List.length y)%nat.
Proof.
  unfold wrong_ixs. rewrite length_map.
  eapply Nat.le_trans; [apply filter_length_le|].
  rewrite length_combine, length_seq. lia.
Qed.

Lemma combine_snoc {A B} (l : list A) (l' : list B) a b :
  List.length l = List.length l' ->
  combine (l ++ [a]) (l' ++ [b]) = combine l l' ++ [(a, b)].
Proof.
  revert l'. induction l as [|x l IH]; intros [|y l'] H; simpl in *;
    try discriminate; [reflexivity|].
  rewrite IH by lia. reflexivity.
Qed.

Lemma append_wrong_only_wrong x pred y ix c w c' :
  In ix (wrong_ixs pred y) -> only_wrong c ->
  outcome (append_wrong x pred y ix c w) = Ok c' ->
  only_wrong c' /\ List.length (gtruths c') = S (List.length (gtruths c)).
Proof.
  intros Hin (Ha & Hp & Hne). unfold append_wrong, tensor_index, bind, ret.
  destruct (nth_error x ix) as [xi|]; [|discriminate].
  destruct (nth_error pred ix) as [p|] eqn:Hpi; [|discriminate].
  destruct (nth_error y ix) as [t|] eqn:Hyi; [|discriminate].
  simpl. intros H. injection H as <-. unfold only_wrong. simpl.
  rewrite !length_app. simpl. repeat split; try lia.
  rewrite combine_snoc by exact Hp.
  apply Forall_app. split; [exact Hne|].
  constructor; [|constructor]. simpl.
  exact (wrong_ixs_spec pred y ix p t Hin Hpi Hyi).
Qed.

Lemma appends_only_wrong x pred y l :
  (forall ix, In ix l -> In ix (wrong_ixs pred y)) ->
  forall c w c', only_wrong c ->
    outcome (foldM (append_wrong x pred y) l c w) = Ok c' ->
    only_wrong c'
    /\ List.length (gtruths c') = (List.length (gtruths c) + List.length l)%nat.
Proof.
  induction l as [|ix l IH]; intros Hl c w c' Hc; simpl.
  - intros H. injection H as <-. split; [exact Hc|lia].
  - intros H. apply bind_ok_inv in H. destruct H as (c1 & w1 & t1 & H1 & H).
    assert (H1' : outcome (append_wrong x pred y ix c w) = Ok c1)
      by (rewrite H1; reflexivity).
    apply append_wrong_only_wrong in H1'; [|apply Hl; left; reflexivity|exact Hc].
    destruct H1' as [Hc1 Hn1].
    apply IH in H; [|intros ix' Hix'; apply Hl; right; exact Hix'|exact Hc1].
    destruct H as [Hc' Hn]. split; [exact Hc'|lia].
Qed.

Lemma scan_batch_only_wrong b c w c' :
  only_wrong c -> outcome (scan_batch b c w) = Ok c' ->
  only_wrong c'
  /\ (List.length (gtruths c') <= List.length (gtruths c) + List.length (labels b))%nat.
Proof.
  intros Hc. unfold scan_batch. intros H.
  apply bind_ok_inv in H. destruct H as (out & w1 & t1 & _ & H).
  apply appends_only_wrong in H; [|intros ix Hix; exact Hix|exact Hc].
  destruct H as [Hc' Hn]. split; [exact Hc'|].
  pose proof (wrong_ixs_length (argmax1 out) (labels b)). lia.
Qed.

Lemma scans_only_wrong dl :
  forall c w c', only_wrong c ->
    outcome (foldM scan_batch dl c w) = Ok c' ->
    only_wrong c'
    /\ (List.length (gtruths c') <= List.length (gtruths c) + label_count dl)%nat.
Proof.
  induction dl as [|b dl IH]; intros c w c' Hc; simpl.
  - intros H. injection H as <-. split; [exact Hc|lia].
  - intros H. apply bind_ok_inv in H. destruct H as (c1 & w1 & t1 & H1 & H).
    assert (H1' : outcome (scan_batch b c w) = Ok c1) by (rewrite H1; reflexivity).
    apply scan_batch_only_wrong in H1'; [|exact Hc]. destruct H1' as [Hc1 Hn1].
    apply IH in H; [|exact Hc1]. destruct H as [Hc' Hn].
    split; [exact Hc'|]. unfold label_count in *. simpl. lia.
Qed.

(** X14.  The scan keeps the three collections parallel, stores only
    examples whose prediction differs from the label, and stores at most
    as many as the loader yields labels. *)
Theorem collect_wrong_only_wrong dl w c :
  outcome (collect_wrong dl w) = Ok c ->
  only_wrong c /\ (List.length (gtruths c) <= label_count dl)%nat.
Proof.
  unfold collect_wrong. intros H.
  apply scans_only_wrong in H.
  - exact H.
  - repeat split. constructor.
Qed.

End Scan.

(** ** The inference helpers and the model *)

Section Inference.

Context {F : Framework}.

Lemma emits_for_until (P : event -> Prop) {A B} (f : B -> A -> Py (A * bool)) l :
  (forall b a, emits P (f b a)) -> forall a, emits P (for_until f l a).
Proof.
  intros Hf. induction l as [|b l IH]; intros a; simpl.
  - apply emits_ret.
  - apply emits_bind; [apply Hf|].
    intros [a1 [|]]; simpl; [apply emits_ret|apply IH].
Qed.

Lemma preserves_for_until (I : world -> Prop) {A B} (f : B -> A -> Py (A * bool)) l :
  (forall b a, preserves I (f b a)) -> forall a, preserves I (for_until f l a).
Proof.
  intros Hf. induction l as [|b l IH]; intros a; simpl.
  - apply preserves_ret.
  - apply preserves_bind; [apply Hf|].
    intros [a1 [|]]; simpl; [apply preserves_ret|apply IH].
Qed.

Lemma rng_choice_quiet (P : event -> Prop) (I : world -> Prop) rng n k replace :
  emits P (rng_choice rng n k replace) /\ preserves I (rng_choice rng n k replace).
Proof.
  unfold rng_choice. destruct (_ && _).
  - split; [apply emits_raise|apply preserves_raise].
  - destruct (_ && _).
    + split; [apply emits_raise|apply preserves_raise].
    + split; [apply emits_ret|apply preserves_ret].
Qed.

Lemma default_rng_quiet (P : event -> Prop) (I : world -> Prop) seed :
  emits P (default_rng seed) /\ preserves I (default_rng seed).
Proof.
  unfold default_rng. destruct seed as [s|].
  - destruct (s <? 0)%Z.
    + split; [apply emits_raise|apply preserves_raise].
    + split; [apply emits_ret|apply preserves_ret].
  - split.
    + apply emits_bind; [apply emits_get|intro; apply emits_ret].
    + apply preserves_bind; [apply preserves_get|intro; apply preserves_ret].
Qed.

Lemma plt_subplot_quiet (P : event -> Prop) (I : world -> Prop) r c i :
  P (EvSubplot r c i) ->
  emits P (plt_subplot r c i) /\ preserves I (plt_subplot r c i).
Proof.
  intros HP. unfold plt_subplot. destruct (_ || _).
  - split; [apply emits_raise|apply preserves_raise].
  - destruct (_ || _).
    + split; [apply emits_raise|apply preserves_raise].
    + split; [apply emits_emit; exact HP|apply preserves_emit].
Qed.

(** *** The events of the two inference helpers *)

(** The events a piece of inference code may emit: none of them updates
    parameters, gradients or the schedule. *)
Ltac no_update :=
  repeat first
    [ apply emits_ret | apply emits_raise | apply emits_get | apply emits_modify
    | apply emits_emit; reflexivity
    | apply quiet_tensor_index; exact (fun _ => True)
    | apply quiet_py_index; exact (fun _ => True)
    | apply plt_subplot_quiet; [exact (fun _ => True)|reflexivity]
    | apply rng_choice_quiet; exact (fun _ => True)
    | apply default_rng_quiet; exact (fun _ => True)
    | apply collect_wrong_emits; intro; reflexivity
    | apply emits_bind; [|intro] ].

Lemma show_example_no_update class_names n was x preds j k :
  emits (fun ev => is_update ev = false) (show_example class_names n was x preds j k).
Proof.
  unfold show_example, view_grid, model_train. no_update.
  destruct (_ =? n)%Z; no_update.
Qed.

Lemma visualize_batch_no_update class_names n was b k :
  emits (fun ev => is_update ev = false) (visualize_batch class_names n was b k).
Proof.
  unfold visualize_batch. apply emits_bind.
  - intros w. rewrite call_model_run. repeat constructor.
  - intros out. apply emits_for_until. intros j k'. apply show_example_no_update.
Qed.

Lemma render_cell_no_update class_labels c i_ix u :
  emits (fun ev => is_update ev = false) (render_cell class_labels c i_ix u).
Proof.
  destruct i_ix as [i ix]. unfold render_cell. no_update.
  - destruct (truthy class_labels); no_update.
  - destruct (i <? 25)%nat; no_update.
Qed.

(** *** What the two inference helpers leave in the store *)


Lemma model_train_keeps I mode : model_blind I -> preserves I (model_train mode).
Proof. intros HI w Hw. apply HI. exact Hw. Qed.

Lemma call_model_keeps I x : model_blind I -> preserves I (call_model x).
Proof. intros HI w Hw. rewrite call_model_run. apply HI. exact Hw. Qed.

Ltac keeps HI :=
  repeat first
    [ apply preserves_ret | apply preserves_raise | apply preserves_get
    | apply preserves_emit
    | apply model_train_keeps; exact HI
    | apply call_model_keeps; exact HI
    | apply (quiet_tensor_index _ _ (fun _ => True))
    | apply (quiet_py_index _ _ (fun _ => True))
    | apply (plt_subplot_quiet (fun _ => True)); exact I
    | apply (rng_choice_quiet (fun _ => True))
    | apply (default_rng_quiet (fun _ => True))
    | apply preserves_bind; [|intro] ].

Lemma show_example_keeps I class_names n was x preds j k :
  model_blind I -> preserves I (show_example class_names n was x preds j k).
Proof.
  intros HI. unfold show_example, view_grid. keeps HI.
  destruct (_ =? n)%Z; keeps HI.
Qed.

Lemma visualize_batch_keeps I class_names n was b k :
  model_blind I -> preserves I (visualize_batch class_names n was b k).
Proof.
  intros HI. unfold visualize_batch. keeps HI.
  apply preserves_for_until. intros j k'. apply show_example_keeps. exact HI.
Qed.

Lemma collect_wrong_keeps I dl :
  (forall x, preserves I (call_model x)) -> preserves I (collect_wrong dl).
Proof.
  intros HI. unfold collect_wrong. apply preserves_foldM. intros b c.
  unfold scan_batch. apply preserves_bind; [apply HI|].
  intros out. apply preserves_foldM. intros ix c'. unfold append_wrong.
  repeat (apply preserves_bind;
          [apply (quiet_tensor_index _ _ (fun _ => True))|intro]).
  apply preserves_ret.
Qed.

Lemma render_cell_keeps I class_labels c i_ix u :
  preserves I (render_cell class_labels c i_ix u).
Proof.
  destruct i_ix as [i ix]. unfold render_cell.
  assert (HI : True) by exact Logic.I. keeps HI.
  - destruct (truthy class_labels); keeps HI.
  - destruct (i <? 25)%nat; keeps HI.
Qed.

Lemma visualize_model_keeps I dl class_names n :
  model_blind I -> preserves I (visualize_model dl class_names n).
Proof.
  intros HI. unfold visualize_model, model_eval. keeps HI.
  - apply preserves_for_until. intros b k. apply visualize_batch_keeps. exact HI.
  - match goal with |- context [if snd ?r then _ else _] => destruct (snd r) end; keeps HI.
Qed.

(** X12.  [visualize_model] is inference only: it never clears or computes
    gradients, never steps the optimizer or the scheduler, never loads a
    state dict, and leaves the optimizer as it was. *)
Theorem visualize_model_never_updates dl class_names n w :
  Forall (fun ev => is_update ev = false)
         (events (visualize_model dl class_names n w))
  /\ optim (store (visualize_model dl class_names n w)) = optim w.
Proof.
  split.
  - revert w.
    change (emits (fun ev => is_update ev = false) (visualize_model dl class_names n)).
    unfold visualize_model, model_eval, model_train. no_update.
    + apply emits_for_until. intros b k. apply visualize_batch_no_update.
    + match goal with |- context [if snd ?r then _ else _] => destruct (snd r) end; no_update.
  - apply (visualize_model_keeps (fun w' => optim w' = optim w));
      [intros w0 m H; exact H|reflexivity].
Qed.


Lemma sample_wrong_keeps I dl seed replace :
  model_blind I -> preserves I (sample_wrong dl seed replace).
Proof.
  intros HI. unfold sample_wrong, model_eval. keeps HI.
  apply collect_wrong_keeps. intros x. apply call_model_keeps. exact HI.
Qed.

(** X16.  [explore_wrong_5x5_rgb] is inference only: it never clears or
    computes gradients, never steps the optimizer or the scheduler,
    never loads a state dict, and leaves the optimizer as it was. *)
Theorem explore_wrong_never_updates dl class_labels seed replace w :
  Forall (fun ev => is_update ev = false)
         (events (explore_wrong_5x5_rgb dl class_labels seed replace w))
  /\ optim (store (explore_wrong_5x5_rgb dl class_labels seed replace w)) = optim w.
Proof.
  split.
  - revert w.
    change (emits (fun ev => is_update ev = false)
                  (explore_wrong_5x5_rgb dl class_labels seed replace)).
    unfold explore_wrong_5x5_rgb. apply emits_bind.
    + unfold sample_wrong, model_eval, model_train. no_update.
    + intros [c ixs]. unfold model_train. no_update.
      apply emits_foldM. intros i_ix u. apply render_cell_no_update.
  - assert (HI : model_blind (fun w' => optim w' = optim w)).
    { intros w0 m H. exact H. }
    apply (bind_keeps (fun w' => optim w' = optim w)).
    + apply (sample_wrong_keeps _ dl seed replace HI). reflexivity.
    + intros [c ixs]. keeps HI.
      apply preserves_foldM. intros i_ix u. apply render_cell_keeps.
Qed.

(** *** The parameters under inference *)

Lemma call_model_evaluating p x :
  eval_forward_pure -> preserves (evaluating p) (call_model x).
Proof.
  intros Hpure w [Hmode Hp]. rewrite call_model_run. unfold evaluating. simpl.
  rewrite Hmode. split; [reflexivity|]. rewrite Hpure. exact Hp.
Qed.

Lemma model_train_parameters p mode :
  preserves (fun w => state_dict (model w) = p) (model_train mode).
Proof. intros w Hw. exact Hw. Qed.

(** X17.  When the forward pass in evaluation mode updates no buffer,
    [explore_wrong_5x5_rgb] leaves the parameters of the model as they
    were, in every run. *)
Theorem explore_wrong_keeps_parameters dl class_labels seed replace w :
  eval_forward_pure ->
  state_dict (model (store (explore_wrong_5x5_rgb dl class_labels seed replace w)))
  = state_dict (model w).
Proof.
  intros Hpure. unfold explore_wrong_5x5_rgb.
  apply (bind_keeps (fun w' => state_dict (model w') = state_dict (model w))).
  - unfold sample_wrong.
    refine (proj2 (bind_keeps (evaluating (state_dict (model w))) _ _ w _ _)).
    + split; reflexivity.
    + intros _. apply preserves_bind.
      { apply (default_rng_quiet (fun _ => True)). }
      intros rng. apply preserves_bind.
      { apply collect_wrong_keeps. intros x.
        apply call_model_evaluating. exact Hpure. }
      intros c. apply preserves_bind; [|intro; apply preserves_ret].
      apply (rng_choice_quiet (fun _ => True)).
  - intros [c ixs]. apply preserves_bind; [apply preserves_emit|intros _].
    apply preserves_bind; [|intros _; apply model_train_parameters].
    apply preserves_foldM. intros i_ix u. apply render_cell_keeps.
Qed.


Lemma show_example_still class_names n was x preds j k p w :
  evaluating p w ->
  still_evaluating p (show_example class_names n was x preds j k w).
Proof.
  intros [Hmode Hp].
  assert (Hraise : forall e t,
             still_evaluating p (Raise e : result (Z * bool), w, t)).
  { intros e t. split; [exact Hp|]. intros k0 H. discriminate H. }
  unfold show_example, plt_subplot, view_grid.
  destruct (_ || _); [apply Hraise|].
  destruct (_ || _); [apply Hraise|].
  unfold bind at 1. unfold emit at 1. unfold bind at 1. unfold emit at 1.
  unfold bind at 1.
  destruct (tensor_index_cases preds j w) as [[q Hq]|Hq]; rewrite Hq; [|apply Hraise].
  unfold bind at 1.
  destruct (py_index_cases class_names q w) as [[nm Hn]|Hn]; rewrite Hn;
    [|apply Hraise].
  unfold bind at 1. unfold emit at 1. unfold bind at 1.
  destruct (tensor_index_cases x j w) as [[xj Hx]|Hx]; rewrite Hx; [|apply Hraise].
  unfold bind, emit, ret, model_train, modify. simpl.
  destruct (_ =? n)%Z; split; simpl; try exact Hp.
  - intros k0 H. discriminate H.
  - intros k0 _. exact Hmode.
Qed.

Lemma for_until_still {B} (f : B -> Z -> Py (Z * bool)) p l :
  (forall b k w, evaluating p w -> still_evaluating p (f b k w)) ->
  forall k w, evaluating p w -> still_evaluating p (for_until f l k w).
Proof.
  intros Hf. induction l as [|b l IH]; intros k w Hw; cbn [for_until].
  - destruct Hw as [Hmode Hp]. split; [exact Hp|]. intros k0 _. exact Hmode.
  - unfold bind. specialize (Hf b k w Hw).
    destruct (f b k w) as [[[[k1 [|]]|e] w1] t1]; cbn [snd fst].
    + destruct Hf as [Hp _]. split; [exact Hp|]. intros k0 H. discriminate H.
    + destruct Hf as [Hp Hmode]. specialize (Hmode k1 eq_refl).
      specialize (IH k1 w1 (conj Hmode Hp)).
      destruct (for_until f l k1 w1) as [[r w2] t2]. exact IH.
    + exact Hf.
Qed.

Lemma visualize_batch_still class_names n was b k p w :
  eval_forward_pure -> evaluating p w ->
  still_evaluating p (visualize_batch class_names n was b k w).
Proof.
  intros Hpure Hw. unfold visualize_batch. unfold bind.
  pose proof (call_model_evaluating p (inputs b) Hpure w Hw) as Hw1.
  rewrite call_model_run in *. cbn [store fst snd] in Hw1.
  match goal with |- context [for_until ?f ?l k ?w1] =>
    pose proof (for_until_still f p l
                  (fun j k0 w0 H => show_example_still class_names n was _ _ j k0 p w0 H)
                  k w1 Hw1) as H;
    destruct (for_until f l k w1) as [[r w2] t2] end.
  exact H.
Qed.

(** X13.  When the forward pass in evaluation mode updates no buffer,
    [visualize_model] leaves the parameters of the model as they were,
    in every run. *)
Theorem visualize_model_keeps_parameters dl class_names n w :
  eval_forward_pure ->
  state_dict (model (store (visualize_model dl class_names n w)))
  = state_dict (model w).
Proof.
  intros Hpure. rewrite visualize_model_unfold. unfold prepend.
  cbn [store fst snd].
  apply (bind_keeps (fun w' => state_dict (model w') = state_dict (model w))).
  - apply (for_until_still _ (state_dict (model w)) dl).
    + intros b k w0 Hw0. apply visualize_batch_still; assumption.
    + split; reflexivity.
  - intros r. destruct (snd r); [apply preserves_ret|apply model_train_parameters].
Qed.

(** *** Sampling with replacement *)

(** X15.  With [replace=True] and a seed [default_rng] accepts, one
    misclassified example is enough for the draw of the 25 indices; when
    the scan finds none, the sampling call raises [ValueError] and so
    does [explore_wrong_5x5_rgb], after the scan, with the model in
    evaluation mode. *)
Theorem explore_wrong_with_replacement dl class_labels seed w c w1 t1 :
  seed_ok seed ->
  collect_wrong dl (eval_world w) = (Ok c, w1, t1) ->
  match gtruths c with
  | [] =>
      explore_wrong_5x5_rgb dl class_labels seed true w
      = (Raise ValueError, w1, EvModelTrain false :: t1)
      /\ training (model w1) = false
  | _ :: _ =>
      sample_wrong dl seed true w
      = (Ok (c, draw (rng_of seed w) (List.length (gtruths c)) 25 true),
         w1, EvModelTrain false :: t1)
  end.
Proof.
  intros Hseed Hscan. destruct (gtruths c) as [|g gs] eqn:Hg.
  - split.
    + unfold explore_wrong_5x5_rgb. apply bind_raise.
      rewrite (sample_wrong_unfold dl seed true w Hseed).
      rewrite (bind_ok _ _ _ Hscan). rewrite Hg.
      unfold prepend, bind, rng_choice, raise. simpl.
      rewrite app_nil_r. reflexivity.
    + pose proof (collect_wrong_eval_mode dl (eval_world w) eq_refl) as H.
      rewrite Hscan in H. exact H.
  - rewrite (sample_wrong_unfold dl seed true w Hseed).
    rewrite (bind_ok _ _ _ Hscan). rewrite Hg.
    unfold prepend, bind, rng_choice, ret. simpl.
    rewrite app_nil_r. reflexivity.
Qed.

(** *** A seed numpy refuses *)

(** X19.  A negative integer seed is refused by [default_rng]:
    [explore_wrong_5x5_rgb] raises [ValueError] right after the switch
    to evaluation mode, before any forward pass, whatever the data, the
    class labels and the [replace] flag; the model is left in evaluation
    mode with the parameters it had. *)
Theorem explore_wrong_negative_seed_raises dl class_labels s replace w :
  (s < 0)%Z ->
  explore_wrong_5x5_rgb dl class_labels (Some s) replace w
  = (Raise ValueError, eval_world w, [EvModelTrain false]).
Proof.
  intros Hneg. unfold explore_wrong_5x5_rgb. apply bind_raise.
  apply sample_wrong_negative_seed. exact Hneg.
Qed.

End Inference.

(** ** Runs on the small framework *)

Import Toy.

(** Every epoch of [data] has a batch and a size in both phases. *)
Lemma toy_good label e : good_epoch (data label) e.
Proof. intros [|]; split; simpl; discriminate. Qed.

(** C1 as stated fails: with one epoch whose validation accuracy is 0,
    epoch 0 holds the highest recorded validation accuracy, yet the
    model returned has the initial weight 0, not the weight 1 it had at
    the end of that validation phase. *)
Lemma train_model_best_counterexample :
  ~ (forall m i a,
        outcome (train_model (data 9) 1 (start 0 false)) = Ok m ->
        nth_error (val_accs (events (train_model (data 9) 1 (start 0 false)))) i
        = Some a ->
        (forall j c,
            nth_error (val_accs (events (train_model (data 9) 1 (start 0 false)))) j
            = Some c -> (c <= a)%Q) ->
        (forall j c, (j < i)%nat ->
            nth_error (val_accs (events (train_model (data 9) 1 (start 0 false)))) j
            = Some c -> (c < a)%Q) ->
        state_dict m = snapshot_at (data 9) 1 i (start 0 false)).
Proof.
  intros H.
  specialize (H (mkModel 0%Z false) 0%nat (0 # 2)%Q eq_refl eq_refl).
  assert (Hneq : state_dict (mkModel 0%Z false)
                 <> snapshot_at (data 9) 1 0 (start 0 false)).
  { vm_compute. discriminate. }
  apply Hneq, H.
  - intros [|j] c Hc; vm_compute in Hc.
    + injection Hc as <-. apply Qle_refl.
    + destruct j; discriminate.
  - intros j c Hj. lia.
Qed.

(** Three epochs with validation accuracies 0, 1 and 0: the model
    returned has the parameters of the end of epoch 1. *)
Lemma train_model_returns_best_witness :
  exists m,
    outcome (train_model (data 2) 3 (start 0 false)) = Ok m
    /\ state_dict m = snapshot_at (data 2) 3 1 (start 0 false).
Proof.
  destruct (train_model_returns_best (data 2) 3 (start 0 false))
    as (m & Hm & _ & Hbest & _).
  { intros e _. apply toy_good. }
  exists m. split; [exact Hm|].
  apply (Hbest 1%nat (2 # 2)%Q).
  - reflexivity.
  - reflexivity.
  - intros j c Hc.
    destruct j as [|[|[|j]]]; vm_compute in Hc;
      [| | |destruct j; discriminate Hc];
      injection Hc as <-; discriminate.
  - intros j c Hj Hc.
    destruct j as [|j]; [|lia].
    vm_compute in Hc. injection Hc as <-. reflexivity.
Defined.

(** Two epochs with validation accuracy 0. *)
Lemma train_model_all_zero_keeps_initial_witness :
  exists m,
    outcome (train_model (data 9) 2 (start 0 false)) = Ok m
    /\ state_dict m = state_dict (model (start 0 false)).
Proof.
  apply (train_model_all_zero_keeps_initial (data 9) 2 (start 0 false)).
  - intros e _. apply toy_good.
  - intros a Ha. vm_compute in Ha.
    destruct Ha as [<-|[<-|[]]]; reflexivity.
Defined.

(** C2 as stated fails: a run that returns leaves the model, which was
    in evaluation mode at entry, in training mode. *)
Lemma explore_wrong_eval_mode_counterexample :
  ~ (outcome (explore_wrong_5x5_rgb two_wrong None (Some 3%Z) true (start 0 false))
     = Ok tt ->
     training (model (store (explore_wrong_5x5_rgb two_wrong None (Some 3%Z) true
                                                   (start 0 false))))
     = false).
Proof. intros H. specialize (H eq_refl). vm_compute in H. discriminate. Qed.

(** A run that returns: two misclassified examples sampled with
    replacement. *)
Lemma explore_wrong_leaves_training_mode_witness :
  training (model (store (explore_wrong_5x5_rgb two_wrong None (Some 3%Z) true
                                                (start 0 false))))
  = true.
Proof.
  apply (explore_wrong_leaves_training_mode two_wrong None (Some 3%Z) true
           (start 0 false)).
  vm_compute. reflexivity.
Defined.

(** Two misclassified examples, sampled without replacement. *)
Lemma explore_wrong_too_few_raises_witness :
  explore_wrong_5x5_rgb two_wrong None (Some 3%Z) false (start 0 true)
  = (Raise ValueError,
     store (collect_wrong two_wrong (eval_world (start 0 true))),
     EvModelTrain false
       :: events (collect_wrong two_wrong (eval_world (start 0 true))))
  /\ Forall is_forward (events (collect_wrong two_wrong (eval_world (start 0 true))))
  /\ training (model (store (collect_wrong two_wrong (eval_world (start 0 true)))))
     = false.
Proof.
  apply (explore_wrong_too_few_raises two_wrong None (Some 3%Z) (start 0 true)
           wrong_zeros).
  - simpl. lia.
  - vm_compute. reflexivity.
  - simpl. lia.
Defined.

(** C5 fails on the code.  With the limit 3 and three validation
    examples, two are rendered in a grid of [3 // 2 = 1] row and 2
    columns; the third [plt.subplot] call raises, and the model, which
    was in training mode, is left in evaluation mode.  With the limit 0
    the first [plt.subplot] call raises in the same way. *)
Theorem visualize_model_limit_failures :
  visualize_model three_images names 3 (start 0 true)
  = (Raise ValueError,
     mkWorld (mkModel 0%Z false) 0%nat 7%Z,
     [EvModelTrain false; EvFigure; EvForward [0; 0; 0]%Z;
      EvSubplot 1 2 1; EvAxisOff; EvSetTitle "predicted: a"; EvImshow 0%Z;
      EvSubplot 1 2 2; EvAxisOff; EvSetTitle "predicted: a"; EvImshow 0%Z])
  /\ visualize_model three_images names 0 (start 0 true)
     = (Raise ValueError,
        mkWorld (mkModel 0%Z false) 0%nat 7%Z,
        [EvModelTrain false; EvFigure; EvForward [0; 0; 0]%Z]).
Proof. split; vm_compute; reflexivity. Qed.

(** ** The display arithmetic, in exact rationals *)

(** On a pixel value in [[0, 1]] normalization followed by
    denormalization is the identity when no rounding occurs. *)
Lemma denormalize_normalize_exact c x :
  (c < 3)%nat -> (0 <= x)%Q -> (x <= 1)%Q ->
  (denormalize c (normalize c x) == x)%Q.
Proof.
  intros Hc H0 H1. unfold denormalize, normalize.
  assert (Hs : (0 < nth c channel_std 0)%Q).
  { destruct c as [|[|[|c]]]; [reflexivity|reflexivity|reflexivity|lia]. }
  set (sd := nth c channel_std 0%Q) in *.
  set (mu := nth c channel_mean 0%Q).
  assert (E : (sd * ((x - mu) / sd) + mu == x)%Q).
  { field. intros Hz. rewrite Hz in Hs. discriminate Hs. }
  unfold clip. rewrite E.
  rewrite Q.max_l by exact H0. rewrite Q.min_l by exact H1. reflexivity.
Qed.

(** ** Further runs on the small framework *)

(** The batches of [data] hold one label per example, and the small
    model predicts once per example. *)
Lemma toy_one_label label n : one_label_per_example (data label) n.
Proof.
  intros e ph b _ Hb. destruct ph; simpl in Hb;
    destruct Hb as [<-|[]]; reflexivity.
Qed.

Lemma toy_one_prediction : one_prediction_per_example.
Proof. intros mode p x. simpl. apply length_map. Qed.


(** One epoch, started in training mode. *)
Lemma train_model_returns_in_eval_mode_witness :
  training (mkModel 0%Z false) = false
  /\ training (model (store (train_model (data 2) 1 (start 0 true)))) = false.
Proof.
  apply (train_model_returns_in_eval_mode (data 2) 1 (start 0 true)).
  - lia.
  - vm_compute. reflexivity.
Defined.

(** Three epochs with validation accuracies 0, 1 and 0. *)
Lemma train_model_reports_best_witness :
  exists t b,
    events (train_model (data 2) 3 (start 0 false))
    = t ++ [EvPrintBest b; EvLoadStateDict]
    /\ (0 <= b)%Q
    /\ (forall a, In a (val_accs (events (train_model (data 2) 3 (start 0 false))))
                  -> (a <= b)%Q)
    /\ (b = 0%Q \/ In b (val_accs (events (train_model (data 2) 3 (start 0 false))))).
Proof.
  eapply (train_model_reports_best (data 2) 3 (start 0 false)).
  vm_compute. reflexivity.
Defined.

(** Two epochs of one training batch and one validation batch each. *)
Lemma train_model_steps_on_training_batches_only_witness :
  filter is_batch_call (events (train_model (data 2) 2 (start 0 false)))
  = flat_map (epoch_batch_calls (data 2)) (seq 0 2)
  /\ List.length (filter is_optimizer_step
                         (events (train_model (data 2) 2 (start 0 false))))
     = 2%nat.
Proof.
  eapply (train_model_steps_on_training_batches_only (data 2) 2 (start 0 false)).
  vm_compute. reflexivity.
Defined.

(** A negative epoch count. *)
Lemma train_model_nonpositive_epochs_witness :
  train_model (data 2) (-3) (start 0 true)
  = (Ok (model (start 0 true)), start 0 true, [EvPrintBest 0; EvLoadStateDict]).
Proof. apply (train_model_nonpositive_epochs (data 2) (-3) (start 0 true)). lia. Defined.

(** The sizes of [data] are the numbers of labels its loaders yield. *)
Lemma train_model_accuracies_in_unit_interval_witness :
  Forall acc_in_unit (events (train_model (data 2) 2 (start 0 false))).
Proof.
  apply (train_model_accuracies_in_unit_interval (data 2) 2 (start 0 false)).
  - apply toy_one_label.
  - exact toy_one_prediction.
  - intros e [|] _; split; vm_compute; first [reflexivity|discriminate].
Defined.

(** Two epochs of [data]: every phase can finish, and the run returns. *)
Lemma train_model_returns_exactly_when_witness :
  is_ok (outcome (train_model (data 2) 2 (start 0 false))) = true
  <-> forall e, (e < Z.to_nat 2)%nat -> good_epoch (data 2) e.
Proof.
  apply (train_model_returns_exactly_when (data 2) 2 (start 0 false)).
  - intros [|]; unfold int64; simpl; lia.
  - apply toy_one_label.
  - exact toy_one_prediction.
Defined.

(** A call that returns at the limit of two images. *)
Lemma visualize_model_restores_mode_witness :
  training (model (store (visualize_model three_images names 2 (start 0 true))))
  = training (model (start 0 true)).
Proof.
  apply (visualize_model_restores_mode three_images names 2 (start 0 true)).
  vm_compute. reflexivity.
Defined.

(** The limit 1. *)
Lemma visualize_model_small_limit_raises_witness :
  exists w',
    visualize_model (one_batch :: []) names 1 (start 0 true)
    = (Raise ValueError, w',
       [EvModelTrain false; EvFigure; EvForward (inputs one_batch)])
    /\ training (model w') = false.
Proof.
  apply (visualize_model_small_limit_raises one_batch [] names 1 (start 0 true)).
  - lia.
  - discriminate.
Defined.

(** The forward pass of the small framework updates no buffer. *)
Lemma visualize_model_keeps_parameters_witness :
  state_dict (model (store (visualize_model three_images names 2 (start 5 true))))
  = state_dict (model (start 5 true)).
Proof.
  apply (visualize_model_keeps_parameters three_images names 2 (start 5 true)).
  intros p x. reflexivity.
Defined.

(** The scan of [two_wrong] with weight 0. *)
Lemma collect_wrong_only_wrong_witness :
  only_wrong wrong_zeros
  /\ (List.length (gtruths wrong_zeros) <= label_count two_wrong)%nat.
Proof.
  apply (collect_wrong_only_wrong two_wrong (start 0 false)).
  vm_compute. reflexivity.
Defined.

(** A model without error: sampling with replacement raises. *)
Lemma explore_wrong_with_replacement_witness :
  explore_wrong_5x5_rgb all_right None (Some 3%Z) true (start 0 true)
  = (Raise ValueError,
     store (collect_wrong all_right (eval_world (start 0 true))),
     EvModelTrain false
       :: events (collect_wrong all_right (eval_world (start 0 true))))
  /\ training (model (store (collect_wrong all_right (eval_world (start 0 true)))))
     = false.
Proof.
  apply (explore_wrong_with_replacement all_right None (Some 3%Z) (start 0 true)
           no_wrong).
  - simpl. lia.
  - vm_compute. reflexivity.
Defined.

(** The seed -1. *)
Lemma explore_wrong_negative_seed_raises_witness :
  explore_wrong_5x5_rgb two_wrong None (Some (-1)%Z) true (start 0 true)
  = (Raise ValueError, eval_world (start 0 true), [EvModelTrain false]).
Proof.
  apply (explore_wrong_negative_seed_raises two_wrong None (-1) true (start 0 true)).
  lia.
Defined.

(** A run that returns, on a model of weight 0. *)
Lemma explore_wrong_keeps_parameters_witness :
  state_dict (model (store (explore_wrong_5x5_rgb two_wrong None (Some 3%Z) true
                                                  (start 0 false))))
  = state_dict (model (start 0 false)).
Proof.
  apply (explore_wrong_keeps_parameters two_wrong None (Some 3%Z) true (start 0 false)).
  intros p x. reflexivity.
Defined.
